(** * SafeVision: the adaptive frame-streaming controller of the camera page

    A shallow embedding of the browser-side control loop that decides, per
    capture tick, whether a camera frame is sent to the server, at which
    rate and quality, and of the failsafe that falls back to the local
    video when no processed frame comes back.

    The JavaScript keeps its state in module-level variables and mutates
    them from timer callbacks and socket handlers; the page is single
    threaded, so every callback runs to completion.  Here the variables
    are the fields of [State], each callback is a function
    [State -> State * list Effect], and [step] dispatches an [Event] to
    its callback.

    Numbers.  Times, counters and latencies are integers ([Z]).  Frame
    rates and qualities are JavaScript numbers that take fractional
    values; they are modelled as exact rationals ([Q]), so [0.2] and [0.3]
    stand for 1/5 and 3/10.  [Math.max] and [Math.min] select one of their
    arguments, which [Qmax] and [Qmin] do as well.  Settings are a record
    whose numeric fields are all present (no [undefined], no [NaN]).

    Not modelled: pixels, canvas drawing, the status text and its colours,
    the camera device.  The record button, the recordings page, the
    dashboard and the navigation menu have modules of their own. *)

From Stdlib Require Import ZArith QArith Qminmax List Bool Lia Lqa String.
Import ListNotations.


(** ** Data model *)

(** [settings]: the fields of the settings object the controller reads. *)
Record Settings := mkSettings {
  frameRate : Q;
  videoQuality : Q;
  adaptiveFrameRate : bool;
  maxFrameRate : Q;
  minFrameRate : Q
}.

(** The defaults of [loadSettings]. *)
Definition defaultSettings : Settings :=
  {| frameRate := 5; videoQuality := 8 # 10; adaptiveFrameRate := true;
     maxFrameRate := 10; minFrameRate := 2 |}.

(** A variable that holds a [setTimeout] handle.  [NoTimer] is [null];
    [Pending d] is a handle whose callback is scheduled and runs at a time
    [>= d]; [Stale] is a handle (a truthy value) whose callback has
    already run or was cleared. *)
Inductive TimerSlot :=
| NoTimer
| Pending (deadline : Z)
| Stale.

Definition truthy (t : TimerSlot) : bool :=
  match t with NoTimer => false | _ => true end.

(** [clearTimeout(t)]: the callback no longer runs; the variable keeps
    its value. *)
Definition clearTimeout (t : TimerSlot) : TimerSlot :=
  match t with Pending _ => Stale | other => other end.

Definition isPending (t : TimerSlot) : bool :=
  match t with Pending _ => true | _ => false end.

(** The module-level variables. *)
Record State := mkState {
  isStreaming : bool;
  frameInterval : bool;                  (* the setInterval handle is live *)
  frameCount : Z;
  lastProcessedFrameTime : Z;
  processingTimeoutWarning : TimerSlot;
  pendingFrames : Z;
  lastFrameSentTime : Z;
  currentAdaptiveFrameRate : Q;
  processingLatencies : list Z;
  frameDropCount : Z;
  isFrameBeingProcessed : bool;
  processingFailsafeTimer : TimerSlot;
  fallbackMode : bool
}.

(** The values the script gives its variables when it is loaded. *)
Definition initialState : State :=
  {| isStreaming := false; frameInterval := false; frameCount := 0;
     lastProcessedFrameTime := 0; processingTimeoutWarning := NoTimer;
     pendingFrames := 0; lastFrameSentTime := 0;
     currentAdaptiveFrameRate := 5; processingLatencies := [];
     frameDropCount := 0; isFrameBeingProcessed := false;
     processingFailsafeTimer := NoTimer; fallbackMode := false |}.

(** What a callback does to the outside world. *)
Inductive Effect :=
| ConsoleError (msg : string)
| ConsoleWarn (msg : string)
| EncodeFrame (quality : Q)                       (* tempCanvas.toBlob *)
| EmitProcessFrame (timestamp frameId : Z) (quality : Q)
| ShowLocalVideo                                  (* video shown, canvas hidden *)
| ShowCanvas.                                     (* canvas shown, video hidden *)

(** An incoming [processed_frame] message: the frame bytes (absent when
    [data] or [data.frame] is missing) and the echoed timestamp. *)
Record FrameMsg := mkFrameMsg {
  frame : option (list Byte.byte);
  timestamp : option Z
}.

(** How the browser treats a non-empty payload. *)
Inductive Decode :=
| BlobThrows        (* [new Blob] or [createImageBitmap] throws at once *)
| DecodeRejects     (* the [createImageBitmap] promise rejects *)
| DrawThrows        (* the [then] callback throws at [ctx.drawImage] *)
| DrawOk.           (* the [then] callback runs to its end *)

(** ** Field updates *)

Definition set_isStreaming v (s : State) : State :=
  mkState v (frameInterval s) (frameCount s) (lastProcessedFrameTime s)
    (processingTimeoutWarning s) (pendingFrames s) (lastFrameSentTime s)
    (currentAdaptiveFrameRate s) (processingLatencies s) (frameDropCount s)
    (isFrameBeingProcessed s) (processingFailsafeTimer s) (fallbackMode s).
Definition set_frameInterval v (s : State) : State :=
  mkState (isStreaming s) v (frameCount s) (lastProcessedFrameTime s)
    (processingTimeoutWarning s) (pendingFrames s) (lastFrameSentTime s)
    (currentAdaptiveFrameRate s) (processingLatencies s) (frameDropCount s)
    (isFrameBeingProcessed s) (processingFailsafeTimer s) (fallbackMode s).
Definition set_frameCount v (s : State) : State :=
  mkState (isStreaming s) (frameInterval s) v (lastProcessedFrameTime s)
    (processingTimeoutWarning s) (pendingFrames s) (lastFrameSentTime s)
    (currentAdaptiveFrameRate s) (processingLatencies s) (frameDropCount s)
    (isFrameBeingProcessed s) (processingFailsafeTimer s) (fallbackMode s).
Definition set_lastProcessedFrameTime v (s : State) : State :=
  mkState (isStreaming s) (frameInterval s) (frameCount s) v
    (processingTimeoutWarning s) (pendingFrames s) (lastFrameSentTime s)
    (currentAdaptiveFrameRate s) (processingLatencies s) (frameDropCount s)
    (isFrameBeingProcessed s) (processingFailsafeTimer s) (fallbackMode s).
Definition set_processingTimeoutWarning v (s : State) : State :=
  mkState (isStreaming s) (frameInterval s) (frameCount s)
    (lastProcessedFrameTime s) v (pendingFrames s) (lastFrameSentTime s)
    (currentAdaptiveFrameRate s) (processingLatencies s) (frameDropCount s)
    (isFrameBeingProcessed s) (processingFailsafeTimer s) (fallbackMode s).
Definition set_pendingFrames v (s : State) : State :=
  mkState (isStreaming s) (frameInterval s) (frameCount s)
    (lastProcessedFrameTime s) (processingTimeoutWarning s) v
    (lastFrameSentTime s) (currentAdaptiveFrameRate s)
    (processingLatencies s) (frameDropCount s) (isFrameBeingProcessed s)
    (processingFailsafeTimer s) (fallbackMode s).
Definition set_lastFrameSentTime v (s : State) : State :=
  mkState (isStreaming s) (frameInterval s) (frameCount s)
    (lastProcessedFrameTime s) (processingTimeoutWarning s) (pendingFrames s)
    v (currentAdaptiveFrameRate s) (processingLatencies s) (frameDropCount s)
    (isFrameBeingProcessed s) (processingFailsafeTimer s) (fallbackMode s).
Definition set_currentAdaptiveFrameRate v (s : State) : State :=
  mkState (isStreaming s) (frameInterval s) (frameCount s)
    (lastProcessedFrameTime s) (processingTimeoutWarning s) (pendingFrames s)
    (lastFrameSentTime s) v (processingLatencies s) (frameDropCount s)
    (isFrameBeingProcessed s) (processingFailsafeTimer s) (fallbackMode s).
Definition set_processingLatencies v (s : State) : State :=
  mkState (isStreaming s) (frameInterval s) (frameCount s)
    (lastProcessedFrameTime s) (processingTimeoutWarning s) (pendingFrames s)
    (lastFrameSentTime s) (currentAdaptiveFrameRate s) v (frameDropCount s)
    (isFrameBeingProcessed s) (processingFailsafeTimer s) (fallbackMode s).
Definition set_frameDropCount v (s : State) : State :=
  mkState (isStreaming s) (frameInterval s) (frameCount s)
    (lastProcessedFrameTime s) (processingTimeoutWarning s) (pendingFrames s)
    (lastFrameSentTime s) (currentAdaptiveFrameRate s)
    (processingLatencies s) v (isFrameBeingProcessed s)
    (processingFailsafeTimer s) (fallbackMode s).
Definition set_isFrameBeingProcessed v (s : State) : State :=
  mkState (isStreaming s) (frameInterval s) (frameCount s)
    (lastProcessedFrameTime s) (processingTimeoutWarning s) (pendingFrames s)
    (lastFrameSentTime s) (currentAdaptiveFrameRate s)
    (processingLatencies s) (frameDropCount s) v
    (processingFailsafeTimer s) (fallbackMode s).
Definition set_processingFailsafeTimer v (s : State) : State :=
  mkState (isStreaming s) (frameInterval s) (frameCount s)
    (lastProcessedFrameTime s) (processingTimeoutWarning s) (pendingFrames s)
    (lastFrameSentTime s) (currentAdaptiveFrameRate s)
    (processingLatencies s) (frameDropCount s) (isFrameBeingProcessed s)
    v (fallbackMode s).
Definition set_fallbackMode v (s : State) : State :=
  mkState (isStreaming s) (frameInterval s) (frameCount s)
    (lastProcessedFrameTime s) (processingTimeoutWarning s) (pendingFrames s)
    (lastFrameSentTime s) (currentAdaptiveFrameRate s)
    (processingLatencies s) (frameDropCount s) (isFrameBeingProcessed s)
    (processingFailsafeTimer s) v.

(** ** Number helpers *)

(** [a < b] on JavaScript numbers. *)
Definition Qltb (a b : Q) : bool := negb (Qle_bool b a).

(** [xs.reduce((a, b) => a + b, 0)] *)
Definition sumZ (xs : list Z) : Z := fold_left Z.add xs 0%Z.

(** [xs.reduce((a, b) => a + b, 0) / xs.length], taken on a non-empty
    window only. *)
Definition average (xs : list Z) : Q :=
  inject_Z (sumZ xs) / inject_Z (Z.of_nat (List.length xs)).

(** [xs.slice(-n)]: the last [n] entries, all of them when there are
    fewer. *)
Definition sliceLast (n : nat) (xs : list Z) : list Z :=
  skipn (List.length xs - n) xs.

(** [xs.push(x)] followed by [if (xs.length > 10) xs.shift()]. *)
Definition pushLatency (x : Z) (xs : list Z) : list Z :=
  let ys := xs ++ [x] in
  if (10 <? Z.of_nat (List.length ys))%Z then tl ys else ys.

(** ** Callbacks that return effects *)

Definition Outcome : Type := State * list Effect.

(** Run [f] on the state of [r] and append its effects. *)
Definition andThen (r : Outcome) (f : State -> Outcome) : Outcome :=
  let (s1, e1) := r in
  let (s2, e2) := f s1 in
  (s2, e1 ++ e2).

Definition quiet (s : State) : Outcome := (s, []).

(** ** Capture loop *)

(** [getEffectiveFrameRate] *)
Definition getEffectiveFrameRate (cfg : Settings) (s : State) : Q :=
  if adaptiveFrameRate cfg
  then Qmax (minFrameRate cfg)
            (Qmin (maxFrameRate cfg) (currentAdaptiveFrameRate s))
  else frameRate cfg.

(** [now - lastFrameSentTime < 1000 / effectiveFrameRate].  A rate of 0
    makes the interval [Infinity], so every tick comes too soon. *)
Definition tooSoon (elapsed : Z) (effectiveFrameRate : Q) : bool :=
  if Qeq_bool effectiveFrameRate 0 then true
  else Qltb (inject_Z elapsed) (1000 / effectiveFrameRate).

(** The quality of the frame about to be encoded. *)
Definition dynamicQuality (cfg : Settings) (s : State) : Q :=
  if adaptiveFrameRate cfg then
    if (2 <? pendingFrames s)%Z then Qmax (3 # 10) (videoQuality cfg - (3 # 10))
    else if (1 <? pendingFrames s)%Z
    then Qmax (5 # 10) (videoQuality cfg - (2 # 10))
    else match processingLatencies s with
         | [] => videoQuality cfg
         | _ :: _ =>
             if Qltb 1000 (average (processingLatencies s))
             then Qmax (4 # 10) (videoQuality cfg - (2 # 10))
             else videoQuality cfg
         end
  else videoQuality cfg.

(** [startFrameCapture] *)
Definition startFrameCapture (cfg : Settings) (s : State) : State :=
  if isStreaming s then s
  else
    set_frameInterval true
      (set_frameDropCount 0%Z
         (set_processingLatencies []
            (set_currentAdaptiveFrameRate (frameRate cfg)
               (set_lastFrameSentTime 0%Z
                  (set_pendingFrames 0%Z (set_isStreaming true s)))))).

(** [stopFrameCapture] *)
Definition stopFrameCapture (s : State) : State :=
  set_frameInterval false (set_isStreaming false s).

(** The body of the [setInterval] callback, run every 100 ms while the
    interval is live.  [videoReady] is
    [video.readyState === video.HAVE_ENOUGH_DATA]. *)
Definition captureTick (cfg : Settings) (videoReady : bool) (now : Z)
    (s : State) : Outcome :=
  if negb videoReady then quiet s
  else if tooSoon (now - lastFrameSentTime s) (getEffectiveFrameRate cfg s)
  then quiet s
  else if (3 <? pendingFrames s)%Z then
    let s1 := set_frameDropCount (frameDropCount s + 1)%Z s in
    quiet (if adaptiveFrameRate cfg
           then set_currentAdaptiveFrameRate
                  (Qmax (minFrameRate cfg)
                        (currentAdaptiveFrameRate s1 - (1 # 2))) s1
           else s1)
  else if isFrameBeingProcessed s && (1 <? pendingFrames s)%Z then
    quiet (set_frameDropCount (frameDropCount s + 1)%Z s)
  else
    let s1 := set_lastFrameSentTime now
                (set_frameCount (frameCount s + 1)%Z s) in
    (s1, [EncodeFrame (dynamicQuality cfg s1)]).

(** [reader.onload]: the encoded frame is ready and is sent.  [quality]
    is the [dynamicQuality] the enclosing tick computed. *)
Definition frameLoaded (quality : Q) (now : Z) (s : State) : Outcome :=
  let s1 := set_pendingFrames (pendingFrames s + 1)%Z
              (set_isFrameBeingProcessed true s) in
  let s2 := if truthy (processingTimeoutWarning s1) then s1
            else set_processingTimeoutWarning (Pending (now + 5000)) s1 in
  (s2, [EmitProcessFrame now (frameCount s) quality]).

(** The callback of the 5 s warning timer; it only changes the status
    text. *)
Definition stallWarningFires (now : Z) (s : State) : Outcome :=
  match processingTimeoutWarning s with
  | Pending d =>
      if (d <=? now)%Z then quiet (set_processingTimeoutWarning Stale s)
      else quiet s
  | _ => quiet s
  end.

(** ** Failsafe *)

(** [enableFallbackMode] *)
Definition enableFallbackMode (s : State) : Outcome :=
  if fallbackMode s then quiet s
  else (set_fallbackMode true s,
        [ConsoleWarn "SafeVision: Enabling fallback mode due to processing issues";
         ShowLocalVideo]).

(** [disableFallbackMode] *)
Definition disableFallbackMode (s : State) : Outcome :=
  if fallbackMode s then (set_fallbackMode false s, [ShowCanvas])
  else quiet s.

(** [setupProcessingFailsafe]: the old timer is cleared and a new one is
    armed for 10 s from [now]. *)
Definition setupProcessingFailsafe (now : Z) (s : State) : State :=
  set_processingFailsafeTimer (Pending (now + 10000)) s.

(** The callback of the failsafe timer. *)
Definition failsafeFires (now : Z) (s : State) : Outcome :=
  match processingFailsafeTimer s with
  | Pending d =>
      if (d <=? now)%Z then
        let s1 := set_processingFailsafeTimer Stale s in
        if (10000 <? now - lastProcessedFrameTime s1)%Z
        then enableFallbackMode s1
        else quiet s1
      else quiet s
  | _ => quiet s
  end.

(** ** The [processed_frame] handler *)

(** The first [if]-chain of the adaptive block: the step chosen by the
    average latency. *)
Definition adjustByLatency (cfg : Settings) (avgLatency rate : Q) : Q :=
  if Qltb 2000 avgLatency then Qmax (minFrameRate cfg) (rate - 1)
  else if Qltb 1000 avgLatency then Qmax (minFrameRate cfg) (rate - (1 # 2))
  else if Qltb avgLatency 300 then Qmin (maxFrameRate cfg) (rate + (1 # 2))
  else if Qltb avgLatency 500 then Qmin (maxFrameRate cfg) (rate + (2 # 10))
  else rate.

(** The second [if] of the adaptive block: the reset towards the base
    rate. *)
Definition recoverTowardsBase (cfg : Settings) (avgLatency : Q)
    (pending : Z) (window : list Z) (rate : Q) : Q :=
  if Qltb avgLatency 400 && (pending =? 0)%Z
     && (5 <=? Z.of_nat (List.length window))%Z
  then
    let recentLatencies := sliceLast 5 window in
    let allGood := forallb (fun lat => (lat <? 500)%Z) recentLatencies in
    if allGood && Qltb rate (frameRate cfg)
    then Qmin (frameRate cfg) (rate + (3 # 10))
    else rate
  else rate.

(** [if (data.timestamp) { ... }]: the latency is recorded and, in
    adaptive mode with at least 3 entries, the rate is adjusted. *)
Definition trackLatency (cfg : Settings) (msg : FrameMsg)
    (processedTime : Z) (s : State) : State :=
  match timestamp msg with
  | None => s
  | Some ts =>
      if (ts =? 0)%Z then s
      else
        let window := pushLatency (processedTime - ts) (processingLatencies s) in
        let s1 := set_processingLatencies window s in
        if adaptiveFrameRate cfg && (3 <=? Z.of_nat (List.length window))%Z
        then
          let avgLatency := average window in
          let r1 := adjustByLatency cfg avgLatency
                      (currentAdaptiveFrameRate s1) in
          let r2 := recoverTowardsBase cfg avgLatency (pendingFrames s1)
                      window r1 in
          set_currentAdaptiveFrameRate r2 s1
        else s1
  end.

(** [pendingFrames = Math.max(0, pendingFrames - 1);
     isFrameBeingProcessed = false;] *)
Definition finishPending (s : State) : State :=
  set_isFrameBeingProcessed false
    (set_pendingFrames (Z.max 0 (pendingFrames s - 1)) s).

(** The [then] callback up to [ctx.drawImage].  The timer is armed here
    and [Date.now()] is read right after the drawing; both happen at
    [now], the most favourable case for the 10 s test of the timer. *)
Definition beforeDraw (now : Z) (s : State) : Outcome :=
  andThen (disableFallbackMode s) (fun s1 =>
    let s2 := if truthy (processingFailsafeTimer s1)
              then set_processingFailsafeTimer
                     (clearTimeout (processingFailsafeTimer s1)) s1
              else s1 in
    quiet (setupProcessingFailsafe now s2)).

(** The [then] callback after [ctx.drawImage]. *)
Definition afterDraw (cfg : Settings) (msg : FrameMsg) (now : Z)
    (s : State) : State :=
  let s1 := set_lastProcessedFrameTime now s in
  let s2 := if truthy (processingTimeoutWarning s1)
            then set_processingTimeoutWarning NoTimer s1 else s1 in
  finishPending (trackLatency cfg msg now s2).

(** [!data || !data.frame || data.frame.byteLength === 0] *)
Definition invalidFrame (msg : FrameMsg) : bool :=
  match frame msg with
  | None => true
  | Some bytes => (List.length bytes =? 0)%nat
  end.

(** [socket.on("processed_frame", ...)] *)
Definition processedFrame (cfg : Settings) (msg : FrameMsg) (d : Decode)
    (now : Z) (s : State) : Outcome :=
  if invalidFrame msg
  then (s, [ConsoleError "Received empty or invalid frame data"])
  else
    match d with
    | BlobThrows =>
        (finishPending s, [ConsoleError "Error handling processed frame:"])
    | DecodeRejects =>
        (finishPending s, [ConsoleError "Error processing frame:"])
    | DrawThrows =>
        andThen (beforeDraw now s) (fun s1 =>
          (finishPending s1, [ConsoleError "Error processing frame:"]))
    | DrawOk =>
        andThen (beforeDraw now s) (fun s1 => quiet (afterDraw cfg msg now s1))
    end.

(** ** Events *)

(** Everything that runs controller code.  [now] is what [Date.now()]
    returns while the callback runs. *)
Inductive Event :=
| CameraReady (now : Z)                 (* video.onloadedmetadata *)
| Tick (videoReady : bool) (now : Z)    (* the setInterval callback *)
| FrameLoaded (quality : Q) (now : Z)   (* reader.onload *)
| StallWarningFires (now : Z)
| FailsafeFires (now : Z)
| ProcessedFrame (msg : FrameMsg) (d : Decode) (now : Z)
| Connect
| ConnectError
| Disconnect (now : Z)
| BeforeUnload
| VisibilityChange (hidden hasStream : bool)
| StopCapture                           (* switchCamera, applySettings *)
| RestartFeed (now : Z).

(** The click handler of the restart button, up to its delayed
    [initCamera]. *)
Definition restartFeed (now : Z) (s : State) : Outcome :=
  andThen (disableFallbackMode s) (fun s1 =>
    let s2 := if truthy (processingFailsafeTimer s1)
              then set_processingFailsafeTimer NoTimer s1 else s1 in
    let s3 := if truthy (processingTimeoutWarning s2)
              then set_processingTimeoutWarning NoTimer s2 else s2 in
    let s4 := set_lastProcessedFrameTime now
                (set_pendingFrames 0%Z (set_frameCount 0%Z s3)) in
    quiet (stopFrameCapture s4)).

(** [socket.on("connect", ...)], up to its [initCamera]. *)
Definition onConnect (s : State) : State :=
  set_pendingFrames 0%Z
    (set_frameDropCount 0%Z (set_processingLatencies [] s)).

(** Both [socket.on("disconnect", ...)] handlers, in registration order. *)
Definition onDisconnect (now : Z) (s : State) : State :=
  setupProcessingFailsafe now (stopFrameCapture s).

(** The [visibilitychange] listener. *)
Definition onVisibilityChange (cfg : Settings) (hidden hasStream : bool)
    (s : State) : State :=
  if hidden then stopFrameCapture s
  else if hasStream && negb (isStreaming s) then startFrameCapture cfg s
  else s.

Definition step (cfg : Settings) (ev : Event) (s : State) : Outcome :=
  match ev with
  | CameraReady now =>
      quiet (setupProcessingFailsafe now (startFrameCapture cfg s))
  | Tick videoReady now =>
      if frameInterval s then captureTick cfg videoReady now s else quiet s
  | FrameLoaded quality now => frameLoaded quality now s
  | StallWarningFires now => stallWarningFires now s
  | FailsafeFires now => failsafeFires now s
  | ProcessedFrame msg d now => processedFrame cfg msg d now s
  | Connect => quiet (onConnect s)
  | ConnectError => quiet (stopFrameCapture s)
  | Disconnect now => quiet (onDisconnect now s)
  | BeforeUnload => quiet (stopFrameCapture s)
  | VisibilityChange hidden hasStream =>
      quiet (onVisibilityChange cfg hidden hasStream s)
  | StopCapture => quiet (stopFrameCapture s)
  | RestartFeed now => restartFeed now s
  end.

(** The state after a sequence of events. *)
Fixpoint run (cfg : Settings) (evs : list Event) (s : State) : State :=
  match evs with
  | [] => s
  | ev :: rest => run cfg rest (fst (step cfg ev s))
  end.

(** The effects of a sequence of events, in order. *)
Fixpoint effects (cfg : Settings) (evs : list Event) (s : State)
    : list Effect :=
  match evs with
  | [] => []
  | ev :: rest =>
      snd (step cfg ev s) ++ effects cfg rest (fst (step cfg ev s))
  end.

(** ** The specification's wording, for comparison *)

(** [clamp x] to [[lo, hi]]. *)
Definition clamp (lo hi x : Q) : Q := Qmax lo (Qmin hi x).

(** The adaptation table of the specification: the change of the rate
    chosen by the average latency. *)
Definition spec_delta (avgLatency : Q) : Q :=
  if Qltb 2000 avgLatency then - (1)
  else if Qltb 1000 avgLatency then - (1 # 2)
  else if Qltb avgLatency 300 then 1 # 2
  else if Qltb avgLatency 500 then 1 # 5
  else 0.

(** The states of the failsafe monitor. *)
Inductive FailsafeState := Normal | Fallback.

Definition failsafeState (s : State) : FailsafeState :=
  if fallbackMode s then Fallback else Normal.

(** A scheduled callback of the session: the capture interval, the stall
    warning or the failsafe timer. *)
Definition anyTimerScheduled (s : State) : bool :=
  frameInterval s || isPending (processingTimeoutWarning s)
  || isPending (processingFailsafeTimer s).

(** ** Sample sessions and derived notions *)

(** The rate lies between the configured bounds. *)
Definition rateInRange (cfg : Settings) (rate : Q) : Prop :=
  minFrameRate cfg <= rate /\ rate <= maxFrameRate cfg.

(** A non-empty frame that echoes the send time [ts]. *)
Definition frameEchoing (ts : Z) : FrameMsg :=
  {| frame := Some [Byte.x52; Byte.x49; Byte.x46; Byte.x46];
     timestamp := Some ts |}.

(** A message whose frame has no bytes. *)
Definition emptyFrame (ts : Z) : FrameMsg :=
  {| frame := Some []; timestamp := Some ts |}.

(** A result that is rendered at [now] after a round trip of [latency]. *)
Definition resultAfter (latency now : Z) : Event :=
  ProcessedFrame (frameEchoing (now - latency)) DrawOk now.

(** The camera becomes ready at time 1000 and four frames are sent
    without any answer. *)
Definition fourUnanswered : list Event :=
  [CameraReady 1000; FrameLoaded (8 # 10) 1100; FrameLoaded (8 # 10) 1300;
   FrameLoaded (8 # 10) 1500; FrameLoaded (8 # 10) 1700]%Z.

(** The rate after each event of a sequence. *)
Fixpoint rateTrace (cfg : Settings) (evs : list Event) (s : State) : list Q :=
  match evs with
  | [] => []
  | ev :: rest =>
      let s' := fst (step cfg ev s) in
      currentAdaptiveFrameRate s' :: rateTrace cfg rest s'
  end.

(** The latency window after each event of a sequence. *)
Fixpoint windowTrace (cfg : Settings) (evs : list Event) (s : State)
    : list (list Z) :=
  match evs with
  | [] => []
  | ev :: rest =>
      let s' := fst (step cfg ev s) in
      processingLatencies s' :: windowTrace cfg rest s'
  end.

(** The camera starts at time 1000 and two results come back after
    2500 ms each: the window holds two entries and nothing was evaluated
    yet. *)
Definition slowStart : list Event :=
  [CameraReady 1000; resultAfter 2500 4000; resultAfter 2500 5000]%Z.

(** Four more results, each 2500 ms late. *)
Definition slowResults : list Event :=
  [resultAfter 2500 6000; resultAfter 2500 7000; resultAfter 2500 8000;
   resultAfter 2500 9000]%Z.

(** The defaults with adaptive mode switched off. *)
Definition fixedRateSettings : Settings :=
  {| frameRate := 5; videoQuality := 8 # 10; adaptiveFrameRate := false;
     maxFrameRate := 10; minFrameRate := 2 |}.

(** The [n] most recent entries of a window, newest first. *)
Definition mostRecent (n : nat) (window : list Z) : list Z :=
  firstn n (rev window).

(** Results that come back after 499 ms. *)
Definition quickResults : list Event :=
  [resultAfter 499 10000; resultAfter 499 11000; resultAfter 499 12000;
   resultAfter 499 13000; resultAfter 499 14000]%Z.

(** Eight results that come back after 100 ms. *)
Definition fastResults : list Event :=
  [resultAfter 100 20000; resultAfter 100 21000; resultAfter 100 22000;
   resultAfter 100 23000; resultAfter 100 24000; resultAfter 100 25000;
   resultAfter 100 26000; resultAfter 100 27000]%Z.

(** The state after six slow results and eight fast ones: the rate sits
    at the floor and one slow entry is left in the window. *)
Definition flooredQuick : State :=
  run defaultSettings (slowStart ++ slowResults ++ fastResults) initialState.

(** A send at [sentAt] and its result, rendered [latency] ms later. *)
Definition roundTrip (sentAt latency : Z) : list Event :=
  [FrameLoaded (8 # 10) sentAt; resultAfter latency (sentAt + latency)].

(** A session in which every result answers the one frame that was sent
    before it: five round trips of 2500 ms, then eight of 100 ms. *)
Definition answeredSession : list Event :=
  (CameraReady 1000
   :: roundTrip 2000 2500 ++ roundTrip 5000 2500 ++ roundTrip 8000 2500
   ++ roundTrip 11000 2500 ++ roundTrip 14000 2500
   ++ roundTrip 17000 100 ++ roundTrip 18000 100 ++ roundTrip 19000 100
   ++ roundTrip 20000 100 ++ roundTrip 21000 100 ++ roundTrip 22000 100
   ++ roundTrip 23000 100 ++ roundTrip 24000 100)%Z.

(** [pendingFrames] after each event of a sequence. *)
Fixpoint pendingTrace (cfg : Settings) (evs : list Event) (s : State)
    : list Z :=
  match evs with
  | [] => []
  | ev :: rest =>
      let s' := fst (step cfg ev s) in
      pendingFrames s' :: pendingTrace cfg rest s'
  end.

(** Settings whose base rate lies above the maximum. *)
Definition fastBaseSettings : Settings :=
  {| frameRate := 15; videoQuality := 8 # 10; adaptiveFrameRate := true;
     maxFrameRate := 10; minFrameRate := 2 |}.

(** Events that arm the failsafe timer or may do so: a session start, a
    disconnect, a [processed_frame] message. *)
Definition armsFailsafe (ev : Event) : bool :=
  match ev with
  | CameraReady _ | Disconnect _ | ProcessedFrame _ _ _ => true
  | _ => false
  end.

(** The display is Normal and no failsafe callback is scheduled. *)
Definition failsafeIdle (s : State) : Prop :=
  fallbackMode s = false /\ isPending (processingFailsafeTimer s) = false.

(** The camera starts at time 1000, a frame is sent at 1100 and its
    result is rendered at 1500, which arms the failsafe for 11500; the
    timer callback runs on time, at 11500. *)
Definition lastSuccessThenTimer : list Event :=
  [CameraReady 1000; FrameLoaded (8 # 10) 1100; resultAfter 400 1500;
   FailsafeFires 11500]%Z.

(** The camera starts, one frame is sent, and the transport
    disconnects. *)
Definition sendThenDisconnect : list Event :=
  [CameraReady 1000; FrameLoaded (8 # 10) 1100; Disconnect 2000]%Z.

(** ** Further notions of the controller *)

(** The window after the latencies [ls] were recorded one by one into an
    empty window. *)
Definition windowAfter (ls : list Z) : list Z :=
  fold_left (fun window x => pushLatency x window) ls [].

(** Events that reset the stall-warning variable to [null]: a
    [processed_frame] message (when it is rendered) and the restart
    button. *)
Definition clearsWarning (ev : Event) : bool :=
  match ev with
  | ProcessedFrame _ _ _ | RestartFeed _ => true
  | _ => false
  end.

(** Events that may run [startFrameCapture] or the [connect] handler, the
    two places that set [frameDropCount] back to 0. *)
Definition resetsCounters (ev : Event) : bool :=
  match ev with
  | CameraReady _ | VisibilityChange _ _ | Connect => true
  | _ => false
  end.

(** Callbacks of the three timers. *)
Definition timerCallback (ev : Event) : bool :=
  match ev with
  | Tick _ _ | StallWarningFires _ | FailsafeFires _ => true
  | _ => false
  end.

(** The camera is ready at time 1000, two frames are sent and none has
    come back. *)
Definition twoUnanswered : list Event :=
  [CameraReady 1000; FrameLoaded (8 # 10) 1100; FrameLoaded (8 # 10) 1300]%Z.

(** Settings with a low configured quality. *)
Definition lowQualitySettings : Settings :=
  {| frameRate := 5; videoQuality := 2 # 10; adaptiveFrameRate := true;
     maxFrameRate := 10; minFrameRate := 2 |}.

(** * The recordings page *)

From Stdlib Require Import Qround DecimalString.

Module Recordings.

(** A JavaScript number with an integer value, as a template literal
    prints it. *)
Definition showInteger (n : Z) : string :=
  NilZero.string_of_int (Z.to_int n).

(** [x.toFixed(0)]: the sign, then the magnitude rounded to the nearest
    integer, the larger one on a tie. *)
Definition toFixed0 (x : Q) : string :=
  if Qltb x 0
  then String.append "-" (showInteger (Qfloor (- x + (1 # 2))))
  else showInteger (Qfloor (x + (1 # 2))).

(** [Math.trunc] *)
Definition truncate (x : Q) : Z :=
  if Qltb x 0 then Qceiling x else Qfloor x.

(** [x % m]: the remainder has the sign of [x]. *)
Definition remainder (x m : Q) : Q :=
  x - m * inject_Z (truncate (x / m)).

(** [formatDuration] *)
Definition formatDuration (seconds : Q) : string :=
  if Qltb seconds 60 then String.append (toFixed0 seconds) "s"
  else if Qltb seconds 3600 then
    let minutes := Qfloor (seconds / 60) in
    let remainingSeconds := remainder seconds 60 in
    String.append (showInteger minutes)
      (String.append "m "
         (String.append (toFixed0 remainingSeconds) "s"))
  else
    let hours := Qfloor (seconds / 3600) in
    let minutes := Qfloor (remainder seconds 3600 / 60) in
    String.append (showInteger hours)
      (String.append "h " (String.append (showInteger minutes) "m")).

(** [value || fallback] on an optional number: a missing value and 0 are
    both falsy. *)
Definition orElse (value : option Q) (fallback : Q) : Q :=
  match value with
  | Some x => if Qeq_bool x 0 then fallback else x
  | None => fallback
  end.

(** The disk figures of the storage reply that [loadStorageInfo] uses. *)
Record StorageInfo := mkStorageInfo {
  disk_used_gb : option Q;
  disk_total_gb : option Q
}.

(** [usagePercent] of [loadStorageInfo] *)
Definition usagePercent (data : StorageInfo) : Q :=
  (orElse (disk_used_gb data) 0 / orElse (disk_total_gb data) 1) * 100.

(** The width of the storage bar, in percent. *)
Definition storageBarWidth (data : StorageInfo) : Q :=
  Qmin 100 (usagePercent data).

End Recordings.

(** * The dashboard *)

Module Dashboard.

(** The parts of a status element that [updatePerformanceStatus]
    writes: its text, its class and its inline colour. *)
Record StatusElement := mkStatusElement {
  textContent : string;
  className : string;
  styleColor : string
}.

(** [value >= threshold]; a missing value compares false. *)
Definition atLeast (value : option Q) (threshold : Q) : bool :=
  match value with
  | Some v => Qle_bool threshold v
  | None => false
  end.

(** [updatePerformanceStatus]; [thresholds] is the two-element array
    [[warning, critical]]. *)
Definition updatePerformanceStatus (element : StatusElement)
    (value : option Q) (thresholds : Q * Q) : StatusElement :=
  if atLeast value (snd thresholds) then
    {| textContent := "Critical"; className := "metric-change negative";
       styleColor := styleColor element |}
  else if atLeast value (fst thresholds) then
    {| textContent := "Warning"; className := "metric-change";
       styleColor := "#ffc107" |}
  else
    {| textContent := "Normal"; className := "metric-change positive";
       styleColor := styleColor element |}.

(** The same element updated with one reading after the other. *)
Definition updateAll (element : StatusElement) (readings : list (option Q))
    (thresholds : Q * Q) : StatusElement :=
  fold_left (fun el v => updatePerformanceStatus el v thresholds)
            readings element.

(** An entry of [data.locations] or [data.categories]: its name and its
    count. *)
Record Bucket := mkBucket {
  name : string;
  count : Z
}.

(** What a chart shows. *)
Record ChartData := mkChartData {
  labels : list string;
  values : list Z
}.

(** One of the two branches of [updateCharts]: the entries of the reply
    when there are any, the built-in sample otherwise. *)
Definition chartFrom (entries : option (list Bucket)) (sample : ChartData)
    : ChartData :=
  match entries with
  | Some ((_ :: _) as items) =>
      {| labels := map name items; values := map count items |}
  | _ => sample
  end.

Definition sampleLocations : ChartData :=
  {| labels := ["Main Entrance"; "Parking Lot"; "Reception"; "Hallway"]%string;
     values := [15; 8; 5; 3]%Z |}.

Definition sampleCategories : ChartData :=
  {| labels := ["Suspicious Behavior"; "Unauthorized Access"; "Violence";
                "Theft"]%string;
     values := [12; 8; 3; 2]%Z |}.

(** [updateCharts]: the location chart and the category chart. *)
Definition updateCharts (locations categories : option (list Bucket))
    : ChartData * ChartData :=
  (chartFrom locations sampleLocations,
   chartFrom categories sampleCategories).

End Dashboard.

(** * The navigation menu *)

Module Navigation.

(** The menu's [active] class and the class of the toggle icon. *)
Record Nav := mkNav {
  menuActive : bool;
  toggleIcon : string
}.

Definition closed : Nav := {| menuActive := false; toggleIcon := "fas fa-bars" |}.
Definition opened : Nav := {| menuActive := true; toggleIcon := "fas fa-times" |}.

(** [toggleMobileMenu] *)
Definition toggleMobileMenu (nav : Nav) : Nav :=
  if menuActive nav then closed else opened.

(** The click listener of a menu link. *)
Definition linkClicked (nav : Nav) : Nav :=
  if menuActive nav then closed else nav.

(** The click listener of the document; [insideNavbar] is
    [navbar.contains(event.target)]. *)
Definition documentClicked (insideNavbar : bool) (nav : Nav) : Nav :=
  if negb insideNavbar && menuActive nav then closed else nav.

Inductive Click :=
| OnToggle
| OnLink
| OnDocument (insideNavbar : bool).

Definition handle (c : Click) (nav : Nav) : Nav :=
  match c with
  | OnToggle => toggleMobileMenu nav
  | OnLink => linkClicked nav
  | OnDocument insideNavbar => documentClicked insideNavbar nav
  end.

(** The icon agrees with the state of the menu. *)
Definition iconMatches (nav : Nav) : Prop :=
  toggleIcon nav
  = (if menuActive nav then "fas fa-times" else "fas fa-bars")%string.

End Navigation.

(** * Recording, on the camera page *)

Module Recorder.

(** The settings the recording code reads. *)
Record RecordingSettings := mkRecordingSettings {
  enableRecording : bool;
  maxRecordingDuration : Q          (* minutes *)
}.

(** [isRecording], [recordingStartTime] ([None] is [null]) and the
    [disabled] attribute of the record button. *)
Record Recorder := mkRecorder {
  isRecording : bool;
  recordingStartTime : option Z;
  buttonDisabled : bool
}.

Definition idle : Recorder :=
  {| isRecording := false; recordingStartTime := None;
     buttonDisabled := false |}.

(** How a request to the server ends: [data.success] is true, it is
    false, or the promise chain throws (network error, HTTP error
    status, malformed reply). *)
Inductive Reply := Succeeded | Refused | Failed.

Inductive Request := PostStart | PostStop.

(** [startRecording], up to its [fetch]; [connected] is
    [socket && socket.connected] and [streaming] is [isStreaming]. *)
Definition startRecording (connected streaming : bool) (r : Recorder)
    : Recorder * list Request :=
  if negb connected then (r, [])
  else if negb streaming then (r, [])
  else ({| isRecording := isRecording r;
           recordingStartTime := recordingStartTime r;
           buttonDisabled := true |}, [PostStart]).

(** The [then], [catch] and [finally] callbacks of [startRecording]. *)
Definition startReplied (reply : Reply) (now : Z) (r : Recorder) : Recorder :=
  match reply with
  | Succeeded =>
      {| isRecording := true; recordingStartTime := Some now;
         buttonDisabled := false |}
  | Refused | Failed =>
      {| isRecording := isRecording r;
         recordingStartTime := recordingStartTime r;
         buttonDisabled := false |}
  end.

(** [stopRecording], up to its [fetch]. *)
Definition stopRecording (r : Recorder) : Recorder * list Request :=
  if negb (isRecording r) then (r, [])
  else ({| isRecording := isRecording r;
           recordingStartTime := recordingStartTime r;
           buttonDisabled := true |}, [PostStop]).

(** The [then], [catch] and [finally] callbacks of [stopRecording]: the
    success branch, the failure branch and the [catch] each reset the
    recording state. *)
Definition stopReplied (reply : Reply) (r : Recorder) : Recorder :=
  match reply with
  | Succeeded | Refused | Failed =>
      {| isRecording := false; recordingStartTime := None;
         buttonDisabled := false |}
  end.

(** [toggleRecording] *)
Definition toggleRecording (connected streaming : bool) (r : Recorder)
    : Recorder * list Request :=
  if negb (isRecording r) then startRecording connected streaming r
  else stopRecording r.

(** [recordingStartTime] is truthy. *)
Definition started (r : Recorder) : option Z :=
  match recordingStartTime r with
  | Some t => if (t =? 0)%Z then None else Some t
  | None => None
  end.

(** The check at the head of the [toBlob] callback: a recording that
    has lasted [maxRecordingDuration] minutes is stopped. *)
Definition checkDuration (cfg : RecordingSettings) (now : Z) (r : Recorder)
    : Recorder * list Request :=
  if isRecording r && enableRecording cfg then
    match started r with
    | Some t =>
        let recordingDuration := inject_Z (now - t) / 1000 / 60 in
        if Qle_bool (maxRecordingDuration cfg) recordingDuration
        then stopRecording r
        else (r, [])
    | None => (r, [])
    end
  else (r, []).

Inductive Event :=
| Click (connected streaming : bool)    (* on the record button *)
| StartReply (reply : Reply) (now : Z)
| StopReply (reply : Reply)
| FrameEncoded (now : Z).               (* the toBlob callback *)

(** A disabled button receives no click. *)
Definition step (cfg : RecordingSettings) (ev : Event) (r : Recorder)
    : Recorder * list Request :=
  match ev with
  | Click connected streaming =>
      if buttonDisabled r then (r, [])
      else toggleRecording connected streaming r
  | StartReply reply now => (startReplied reply now r, [])
  | StopReply reply => (stopReplied reply r, [])
  | FrameEncoded now => checkDuration cfg now r
  end.

Fixpoint run (cfg : RecordingSettings) (evs : list Event) (r : Recorder)
    : Recorder :=
  match evs with
  | [] => r
  | ev :: rest => run cfg rest (fst (step cfg ev r))
  end.

(** The default settings: recording enabled, 5 minutes at most. *)
Definition fiveMinutes : RecordingSettings :=
  {| enableRecording := true; maxRecordingDuration := 5 |}.

End Recorder.

(** * Properties *)

(** ** Comparisons and clamping *)

Lemma Qltb_true (a b : Q) : Qltb a b = true <-> a < b.
Proof.
  unfold Qltb. rewrite negb_true_iff.
  split; intro H.
  - apply Qnot_le_lt. intro Hle. apply Qle_bool_iff in Hle. congruence.
  - destruct (Qle_bool b a) eqn:E; [|reflexivity].
    apply Qle_bool_iff in E. exfalso. apply (Qlt_not_le _ _ H E).
Qed.

Lemma Qltb_false (a b : Q) : Qltb a b = false <-> b <= a.
Proof.
  unfold Qltb. rewrite negb_false_iff. apply Qle_bool_iff.
Qed.

Lemma Qmax_floor (lo x : Q) : lo <= Qmax lo x.
Proof. apply Q.le_max_l. Qed.

Lemma Qmax_below (lo x hi : Q) : lo <= hi -> x <= hi -> Qmax lo x <= hi.
Proof. intros. apply Q.max_lub; assumption. Qed.

Lemma Qmin_cap (hi x : Q) : Qmin hi x <= hi.
Proof. apply Q.le_min_l. Qed.

Lemma Qmin_above (lo hi x : Q) : lo <= hi -> lo <= x -> lo <= Qmin hi x.
Proof. intros. apply Q.min_glb; assumption. Qed.

Lemma clamp_in_range (lo hi x : Q) :
  lo <= hi -> lo <= clamp lo hi x /\ clamp lo hi x <= hi.
Proof.
  intro H. unfold clamp. split.
  - apply Qmax_floor.
  - apply Qmax_below; [assumption | apply Qmin_cap].
Qed.

(** Below the cap, flooring alone is clamping. *)
Lemma floor_is_clamp (lo hi x : Q) : x <= hi -> Qmax lo x == clamp lo hi x.
Proof.
  intro H. unfold clamp. rewrite (Q.min_r hi x H). reflexivity.
Qed.

(** Above the floor, capping alone is clamping. *)
Lemma cap_is_clamp (lo hi x : Q) :
  lo <= hi -> lo <= x -> Qmin hi x == clamp lo hi x.
Proof.
  intros Hb H. unfold clamp. symmetry. apply Q.max_r.
  apply Qmin_above; assumption.
Qed.

(** ** The rate stays between the bounds *)

Lemma adjustByLatency_in_range cfg avg rate :
  rateInRange cfg rate -> rateInRange cfg (adjustByLatency cfg avg rate).
Proof.
  intros [Hlo Hhi]. unfold rateInRange, adjustByLatency.
  assert (Hb : minFrameRate cfg <= maxFrameRate cfg)
    by (eapply Qle_trans; eassumption).
  destruct (Qltb 2000 avg); [|destruct (Qltb 1000 avg);
    [|destruct (Qltb avg 300); [|destruct (Qltb avg 500)]]].
  - split; [apply Qmax_floor | apply Qmax_below; [assumption | lra]].
  - split; [apply Qmax_floor | apply Qmax_below; [assumption | lra]].
  - split; [apply Qmin_above; [assumption | lra] | apply Qmin_cap].
  - split; [apply Qmin_above; [assumption | lra] | apply Qmin_cap].
  - split; assumption.
Qed.

Lemma recoverTowardsBase_in_range cfg avg pending window rate :
  rateInRange cfg (frameRate cfg) ->
  rateInRange cfg rate ->
  rateInRange cfg (recoverTowardsBase cfg avg pending window rate).
Proof.
  intros [Blo Bhi] [Hlo Hhi]. unfold rateInRange, recoverTowardsBase.
  destruct (Qltb avg 400 && (pending =? 0)%Z
            && (5 <=? Z.of_nat (List.length window))%Z);
    [|split; assumption].
  cbv zeta.
  destruct (forallb (fun lat => (lat <? 500)%Z) (sliceLast 5 window)
            && Qltb rate (frameRate cfg));
    [|split; assumption].
  split.
  - apply Qmin_above; [assumption | lra].
  - eapply Qle_trans; [apply Qmin_cap | assumption].
Qed.

Lemma trackLatency_rate cfg msg now s :
  rateInRange cfg (frameRate cfg) ->
  rateInRange cfg (currentAdaptiveFrameRate s) ->
  rateInRange cfg (currentAdaptiveFrameRate (trackLatency cfg msg now s)).
Proof.
  intros Hb Hr. unfold trackLatency.
  destruct (timestamp msg) as [ts|]; [|assumption].
  destruct (ts =? 0)%Z; [assumption|]. cbv zeta.
  destruct (adaptiveFrameRate cfg
            && (3 <=? Z.of_nat (List.length
                  (pushLatency (now - ts) (processingLatencies s))))%Z);
    [|assumption].
  cbn. apply recoverTowardsBase_in_range; [assumption|].
  apply adjustByLatency_in_range. assumption.
Qed.

Lemma beforeDraw_rate now s :
  currentAdaptiveFrameRate (fst (beforeDraw now s))
  = currentAdaptiveFrameRate s.
Proof.
  unfold beforeDraw, andThen, disableFallbackMode, quiet.
  destruct (fallbackMode s); cbn;
    match goal with |- context [truthy ?t] => destruct (truthy t) end;
    reflexivity.
Qed.

Lemma beforeDraw_pending now s :
  pendingFrames (fst (beforeDraw now s)) = pendingFrames s.
Proof.
  unfold beforeDraw, andThen, disableFallbackMode, quiet.
  destruct (fallbackMode s); cbn;
    match goal with |- context [truthy ?t] => destruct (truthy t) end;
    reflexivity.
Qed.

Lemma trackLatency_pending cfg msg now s :
  pendingFrames (trackLatency cfg msg now s) = pendingFrames s.
Proof.
  unfold trackLatency.
  destruct (timestamp msg) as [ts|]; [|reflexivity].
  destruct (ts =? 0)%Z; [reflexivity|]. cbv zeta.
  match goal with |- context [if ?b then _ else _] => destruct b end;
    reflexivity.
Qed.

Lemma afterDraw_pending cfg msg now s :
  pendingFrames (afterDraw cfg msg now s) = Z.max 0 (pendingFrames s - 1).
Proof.
  unfold afterDraw. cbn. rewrite trackLatency_pending.
  destruct (truthy (processingTimeoutWarning s)); reflexivity.
Qed.

Lemma afterDraw_flag cfg msg now s :
  isFrameBeingProcessed (afterDraw cfg msg now s) = false.
Proof. reflexivity. Qed.

Lemma afterDraw_rate cfg msg now s :
  rateInRange cfg (frameRate cfg) ->
  rateInRange cfg (currentAdaptiveFrameRate s) ->
  rateInRange cfg (currentAdaptiveFrameRate (afterDraw cfg msg now s)).
Proof.
  intros Hb Hr. unfold afterDraw. cbn.
  apply trackLatency_rate; [assumption|].
  destruct (truthy (processingTimeoutWarning s)); assumption.
Qed.

(** ** Bookkeeping of the [processed_frame] handler *)

Lemma processedFrame_invalid cfg msg d now s :
  invalidFrame msg = true ->
  processedFrame cfg msg d now s
  = (s, [ConsoleError "Received empty or invalid frame data"]).
Proof. intro H. unfold processedFrame. rewrite H. reflexivity. Qed.

Lemma processedFrame_valid_pending cfg msg d now s :
  invalidFrame msg = false ->
  pendingFrames (fst (processedFrame cfg msg d now s))
  = Z.max 0 (pendingFrames s - 1).
Proof.
  intro H. unfold processedFrame. rewrite H.
  destruct d; try reflexivity.
  - unfold andThen. destruct (beforeDraw now s) as [s1 e1] eqn:E. cbn.
    change s1 with (fst (s1, e1)). rewrite <- E, beforeDraw_pending.
    reflexivity.
  - unfold andThen, quiet. destruct (beforeDraw now s) as [s1 e1] eqn:E.
    cbn [fst]. rewrite afterDraw_pending.
    change s1 with (fst (s1, e1)). rewrite <- E, beforeDraw_pending.
    reflexivity.
Qed.

Lemma processedFrame_valid_flag cfg msg d now s :
  invalidFrame msg = false ->
  isFrameBeingProcessed (fst (processedFrame cfg msg d now s)) = false.
Proof.
  intro H. unfold processedFrame. rewrite H.
  destruct d; try reflexivity;
    unfold andThen, quiet; destruct (beforeDraw now s); reflexivity.
Qed.

Lemma processedFrame_pending_nonneg cfg msg d now s :
  (0 <= pendingFrames s)%Z ->
  (0 <= pendingFrames (fst (processedFrame cfg msg d now s)))%Z.
Proof.
  intro H. destruct (invalidFrame msg) eqn:E.
  - rewrite processedFrame_invalid by assumption. assumption.
  - rewrite processedFrame_valid_pending by assumption. lia.
Qed.

Lemma processedFrame_rate cfg msg d now s :
  rateInRange cfg (frameRate cfg) ->
  rateInRange cfg (currentAdaptiveFrameRate s) ->
  rateInRange cfg
    (currentAdaptiveFrameRate (fst (processedFrame cfg msg d now s))).
Proof.
  intros Hb Hr. unfold processedFrame.
  destruct (invalidFrame msg); [assumption|].
  destruct d; try assumption.
  - unfold andThen. destruct (beforeDraw now s) as [s1 e1] eqn:E. cbn.
    change s1 with (fst (s1, e1)). rewrite <- E, beforeDraw_rate.
    assumption.
  - unfold andThen, quiet. destruct (beforeDraw now s) as [s1 e1] eqn:E.
    cbn [fst]. apply afterDraw_rate; [assumption|].
    change s1 with (fst (s1, e1)). rewrite <- E, beforeDraw_rate.
    assumption.
Qed.

(** ** One step keeps the invariants *)

Lemma captureTick_pending cfg ready now s :
  pendingFrames (fst (captureTick cfg ready now s)) = pendingFrames s.
Proof.
  unfold captureTick, quiet.
  repeat match goal with
         | |- context [if ?b then _ else _] => destruct b
         end; reflexivity.
Qed.

Lemma captureTick_rate cfg ready now s :
  rateInRange cfg (currentAdaptiveFrameRate s) ->
  rateInRange cfg (currentAdaptiveFrameRate (fst (captureTick cfg ready now s))).
Proof.
  intros [Hlo Hhi]. unfold captureTick, quiet.
  destruct (negb ready); [split; assumption|].
  destruct (tooSoon _ _); [split; assumption|].
  destruct (3 <? pendingFrames s)%Z.
  - destruct (adaptiveFrameRate cfg); cbn; [|split; assumption].
    split; [apply Qmax_floor|].
    apply Qmax_below; [eapply Qle_trans; eassumption | lra].
  - destruct (isFrameBeingProcessed s && (1 <? pendingFrames s)%Z);
      split; assumption.
Qed.

Lemma step_pending_nonneg cfg ev s :
  (0 <= pendingFrames s)%Z -> (0 <= pendingFrames (fst (step cfg ev s)))%Z.
Proof.
  intro H. destruct ev; cbn [step].
  - unfold startFrameCapture. destruct (isStreaming s); cbn; lia.
  - destruct (frameInterval s); [|assumption].
    rewrite captureTick_pending. assumption.
  - cbn. destruct (truthy _); cbn; lia.
  - unfold stallWarningFires.
    destruct (processingTimeoutWarning s); try assumption.
    destruct (deadline <=? now)%Z; assumption.
  - unfold failsafeFires, enableFallbackMode.
    destruct (processingFailsafeTimer s); try assumption.
    destruct (deadline <=? now)%Z; [|assumption]. cbn.
    destruct (10000 <? now - lastProcessedFrameTime s)%Z; [|assumption].
    destruct (fallbackMode s); assumption.
  - apply processedFrame_pending_nonneg. assumption.
  - cbn. lia.
  - assumption.
  - assumption.
  - assumption.
  - unfold onVisibilityChange, startFrameCapture, quiet.
    destruct hidden; [assumption|].
    destruct (hasStream && negb (isStreaming s)); [|assumption].
    destruct (isStreaming s); cbn; lia.
  - assumption.
  - unfold restartFeed, andThen, disableFallbackMode, quiet.
    destruct (fallbackMode s); cbn; lia.
Qed.

Lemma run_app cfg evs1 evs2 s :
  run cfg (evs1 ++ evs2) s = run cfg evs2 (run cfg evs1 s).
Proof.
  revert s. induction evs1 as [|ev evs1 IH]; intro s; [reflexivity|].
  cbn. apply IH.
Qed.

Lemma run_pending_nonneg cfg evs : forall s,
  (0 <= pendingFrames s)%Z -> (0 <= pendingFrames (run cfg evs s))%Z.
Proof.
  induction evs as [|ev evs IH]; intros s H; [assumption|].
  cbn. apply IH. apply step_pending_nonneg. assumption.
Qed.

Lemma step_rate cfg ev s :
  rateInRange cfg (frameRate cfg) ->
  rateInRange cfg (currentAdaptiveFrameRate s) ->
  rateInRange cfg (currentAdaptiveFrameRate (fst (step cfg ev s))).
Proof.
  intros Hb Hr. destruct ev; cbn [step].
  - unfold startFrameCapture. destruct (isStreaming s); assumption.
  - destruct (frameInterval s); [|assumption].
    apply captureTick_rate. assumption.
  - cbn. destruct (truthy _); assumption.
  - unfold stallWarningFires.
    destruct (processingTimeoutWarning s); try assumption.
    destruct (deadline <=? now)%Z; assumption.
  - unfold failsafeFires, enableFallbackMode.
    destruct (processingFailsafeTimer s); try assumption.
    destruct (deadline <=? now)%Z; [|assumption]. cbn.
    destruct (10000 <? now - lastProcessedFrameTime s)%Z; [|assumption].
    destruct (fallbackMode s); assumption.
  - apply processedFrame_rate; assumption.
  - assumption.
  - assumption.
  - assumption.
  - assumption.
  - unfold onVisibilityChange, startFrameCapture, quiet.
    destruct hidden; [assumption|].
    destruct (hasStream && negb (isStreaming s)); [|assumption].
    destruct (isStreaming s); assumption.
  - assumption.
  - unfold restartFeed, andThen, disableFallbackMode, quiet.
    destruct (fallbackMode s); cbn;
      repeat match goal with
             | |- context [truthy ?t] => destruct (truthy t)
             end; assumption.
Qed.

Lemma run_rate cfg evs : forall s,
  rateInRange cfg (frameRate cfg) ->
  rateInRange cfg (currentAdaptiveFrameRate s) ->
  rateInRange cfg (currentAdaptiveFrameRate (run cfg evs s)).
Proof.
  induction evs as [|ev evs IH]; intros s Hb Hr; [assumption|].
  cbn. apply IH; [assumption|]. apply step_rate; assumption.
Qed.

(** ** The hard drop of the transmission gate *)

(** C4: on a capture tick that passes the pacing check while more than 3
    frames are pending, the frame is dropped: the drop counter grows by
    exactly 1, nothing is encoded or sent, [pendingFrames] is unchanged,
    and in adaptive mode the rate becomes [max(min, rate - 0.5)] (it is
    left alone otherwise). *)
Theorem C4_hard_drop :
  forall cfg now s,
    frameInterval s = true ->
    tooSoon (now - lastFrameSentTime s) (getEffectiveFrameRate cfg s) = false ->
    (3 < pendingFrames s)%Z ->
    let s' := fst (step cfg (Tick true now) s) in
    frameDropCount s' = (frameDropCount s + 1)%Z
    /\ snd (step cfg (Tick true now) s) = []
    /\ pendingFrames s' = pendingFrames s
    /\ isFrameBeingProcessed s' = isFrameBeingProcessed s
    /\ frameCount s' = frameCount s
    /\ lastFrameSentTime s' = lastFrameSentTime s
    /\ currentAdaptiveFrameRate s'
       = (if adaptiveFrameRate cfg
          then Qmax (minFrameRate cfg) (currentAdaptiveFrameRate s - (1 # 2))
          else currentAdaptiveFrameRate s)
    /\ (adaptiveFrameRate cfg = true ->
        minFrameRate cfg <= currentAdaptiveFrameRate s').
Proof.
  intros cfg now s Hlive Hpace Hpend. cbn [step]. rewrite Hlive.
  unfold captureTick. cbn [negb]. rewrite Hpace.
  apply Z.ltb_lt in Hpend. rewrite Hpend.
  destruct (adaptiveFrameRate cfg); cbn;
    repeat split; try reflexivity; try discriminate.
  intros _. apply Qmax_floor.
Qed.

Lemma C4_hard_drop_witness :
  let s := run defaultSettings fourUnanswered initialState in
  let s' := fst (step defaultSettings (Tick true 2000) s) in
  pendingFrames s = 4%Z
  /\ frameDropCount s' = 1%Z
  /\ pendingFrames s' = 4%Z
  /\ snd (step defaultSettings (Tick true 2000) s) = []
  /\ currentAdaptiveFrameRate s' == 9 # 2.
Proof.
  pose proof (C4_hard_drop defaultSettings 2000
                (run defaultSettings fourUnanswered initialState)
                eq_refl eq_refl eq_refl) as H.
  cbv zeta in H. destruct H as (Hd & He & Hp & _ & _ & _ & Hr & _).
  cbv zeta.
  split; [reflexivity|].
  split; [rewrite Hd; reflexivity|].
  split; [rewrite Hp; reflexivity|].
  split; [exact He|].
  rewrite Hr. reflexivity.
Defined.

(** ** Empty payloads *)

(** C2: evaluation at the failing input.  Four frames are pending when a
    message with an empty frame arrives: the handler logs the error and
    returns with every variable as it was, so [pendingFrames] stays 4
    instead of dropping to 3, and the next tick that passes the pacing
    check is dropped by the gate. *)
Theorem C2_empty_payload_not_decremented :
  let s := run defaultSettings fourUnanswered initialState in
  let r := step defaultSettings (ProcessedFrame (emptyFrame 1100) DrawOk 1900) s in
  pendingFrames s = 4%Z
  /\ r = (s, [ConsoleError "Received empty or invalid frame data"])
  /\ pendingFrames (fst r) = 4%Z
  /\ pendingFrames (fst r) <> Z.max 0 (pendingFrames s - 1)
  /\ isFrameBeingProcessed (fst r) = true
  /\ frameDropCount (fst (step defaultSettings (Tick true 2000) (fst r))) = 1%Z
  /\ snd (step defaultSettings (Tick true 2000) (fst r)) = [].
Proof.
  cbv zeta. repeat split; try reflexivity.
  vm_compute. discriminate.
Qed.

(** ** Bookkeeping on a result *)

(** C7 (amended): on every receipt of a processed-frame result whose
    payload is not empty, whatever the browser then does with it,
    [pendingFrames] is decremented with a floor of 0 and
    [isFrameBeingProcessed] is cleared, also when frames still await
    their results. *)
Theorem C7_result_bookkeeping :
  forall cfg msg d now s,
    invalidFrame msg = false ->
    let s' := fst (step cfg (ProcessedFrame msg d now) s) in
    pendingFrames s' = Z.max 0 (pendingFrames s - 1)
    /\ isFrameBeingProcessed s' = false.
Proof.
  intros cfg msg d now s H. cbv zeta. cbn [step]. split.
  - apply processedFrame_valid_pending. assumption.
  - apply processedFrame_valid_flag. assumption.
Qed.

Lemma C7_result_bookkeeping_witness :
  let s := run defaultSettings fourUnanswered initialState in
  let s' := fst (step defaultSettings (resultAfter 800 1900) s) in
  pendingFrames s = 4%Z
  /\ pendingFrames s' = 3%Z
  /\ isFrameBeingProcessed s' = false.
Proof.
  pose proof (C7_result_bookkeeping defaultSettings (frameEchoing 1100)
                DrawOk 1900
                (run defaultSettings fourUnanswered initialState)
                eq_refl) as H.
  cbv zeta in H. destruct H as [Hp Hf].
  cbv zeta.
  split; [reflexivity|].
  split; [|exact Hf].
  unfold resultAfter. change (1900 - 800)%Z with 1100%Z.
  rewrite Hp. reflexivity.
Defined.

(** C7 as stated fails: with four frames pending, one result leaves three
    frames awaiting their results, yet the in-flight flag is cleared. *)
Lemma C7_flag_cleared_while_frames_pending :
  let s := run defaultSettings fourUnanswered initialState in
  let s' := fst (step defaultSettings (resultAfter 800 1900) s) in
  isFrameBeingProcessed s = true
  /\ (0 < pendingFrames s')%Z
  /\ isFrameBeingProcessed s' <> true.
Proof.
  cbv zeta. repeat split; vm_compute; congruence.
Qed.

(** C10: when a non-empty processed frame cannot be decoded or drawn
    (the constructor or the decoder throws, the decode promise rejects,
    or the drawing throws), the error is logged, [pendingFrames] is
    decremented with a floor of 0 and [isFrameBeingProcessed] is
    cleared. *)
Theorem C10_failed_frame_releases_gate :
  forall cfg msg d now s,
    invalidFrame msg = false ->
    d <> DrawOk ->
    let r := step cfg (ProcessedFrame msg d now) s in
    pendingFrames (fst r) = Z.max 0 (pendingFrames s - 1)
    /\ isFrameBeingProcessed (fst r) = false
    /\ (exists text, In (ConsoleError text) (snd r))
    /\ processingLatencies (fst r) = processingLatencies s
    /\ currentAdaptiveFrameRate (fst r) = currentAdaptiveFrameRate s.
Proof.
  intros cfg msg d now s H Hd. cbv zeta. cbn [step].
  split; [apply processedFrame_valid_pending; assumption|].
  split; [apply processedFrame_valid_flag; assumption|].
  unfold processedFrame. rewrite H.
  destruct d; try congruence.
  - split; [eexists; left; reflexivity | split; reflexivity].
  - split; [eexists; left; reflexivity | split; reflexivity].
  - unfold andThen, beforeDraw, andThen, disableFallbackMode, quiet.
    destruct (fallbackMode s); cbn;
      match goal with |- context [truthy ?t] => destruct (truthy t) end;
      cbn; (split; [eexists; auto | split; reflexivity]).
Qed.

Lemma C10_failed_frame_releases_gate_witness :
  let s := run defaultSettings
             [CameraReady 1000; FrameLoaded (8 # 10) 1100]%Z initialState in
  let r := step defaultSettings
             (ProcessedFrame (frameEchoing 1100) DecodeRejects 1900) s in
  pendingFrames s = 1%Z
  /\ isFrameBeingProcessed s = true
  /\ pendingFrames (fst r) = 0%Z
  /\ isFrameBeingProcessed (fst r) = false.
Proof.
  pose proof (C10_failed_frame_releases_gate defaultSettings
                (frameEchoing 1100) DecodeRejects 1900
                (run defaultSettings
                   [CameraReady 1000; FrameLoaded (8 # 10) 1100]%Z
                   initialState)
                eq_refl) as H.
  cbv zeta in H. destruct H as (Hp & Hf & _); [discriminate|].
  cbv zeta.
  split; [reflexivity|].
  split; [reflexivity|].
  split; [rewrite Hp; reflexivity | exact Hf].
Defined.

(** ** The rate after a rendered result *)

(** What the handler does to the rate when a non-empty frame with an
    echoed timestamp has been drawn. *)
Lemma processedFrame_ok_rate cfg msg ts now s :
  invalidFrame msg = false ->
  timestamp msg = Some ts ->
  ts <> 0%Z ->
  let window := pushLatency (now - ts) (processingLatencies s) in
  currentAdaptiveFrameRate (fst (processedFrame cfg msg DrawOk now s))
  = if adaptiveFrameRate cfg && (3 <=? Z.of_nat (List.length window))%Z
    then recoverTowardsBase cfg (average window) (pendingFrames s) window
           (adjustByLatency cfg (average window) (currentAdaptiveFrameRate s))
    else currentAdaptiveFrameRate s.
Proof.
  intros Hv Hts Hnz. cbv zeta. unfold processedFrame. rewrite Hv.
  unfold andThen, quiet. destruct (beforeDraw now s) as [s1 e1] eqn:E.
  cbn [fst].
  assert (Hr : currentAdaptiveFrameRate s1 = currentAdaptiveFrameRate s)
    by (change s1 with (fst (s1, e1)); rewrite <- E; apply beforeDraw_rate).
  assert (Hp : pendingFrames s1 = pendingFrames s)
    by (change s1 with (fst (s1, e1)); rewrite <- E; apply beforeDraw_pending).
  assert (Hw : processingLatencies s1 = processingLatencies s).
  { change s1 with (fst (s1, e1)). rewrite <- E.
    unfold beforeDraw, andThen, disableFallbackMode, quiet.
    destruct (fallbackMode s); cbn;
      match goal with |- context [truthy ?t] => destruct (truthy t) end;
      reflexivity. }
  unfold afterDraw, finishPending, trackLatency. rewrite Hts.
  apply Z.eqb_neq in Hnz. rewrite Hnz.
  destruct (truthy (processingTimeoutWarning
                      (set_lastProcessedFrameTime now s1))); cbn;
    rewrite ?Hw, ?Hr, ?Hp;
    match goal with |- context [if ?b then _ else _] => destruct b end;
    cbn; rewrite ?Hr; reflexivity.
Qed.

(** With the rate between the bounds, the code's one-sided [Math.max] and
    [Math.min] agree with the table of the specification followed by a
    clamp to [[min, max]]. *)
Lemma adjustByLatency_spec cfg avg rate :
  rateInRange cfg rate ->
  adjustByLatency cfg avg rate
  == clamp (minFrameRate cfg) (maxFrameRate cfg) (rate + spec_delta avg).
Proof.
  intros [Hlo Hhi]. unfold adjustByLatency, spec_delta.
  assert (Hb : minFrameRate cfg <= maxFrameRate cfg)
    by (eapply Qle_trans; eassumption).
  destruct (Qltb 2000 avg); [|destruct (Qltb 1000 avg);
    [|destruct (Qltb avg 300); [|destruct (Qltb avg 500)]]].
  - rewrite <- floor_is_clamp by lra. reflexivity.
  - rewrite <- floor_is_clamp by lra. reflexivity.
  - rewrite <- cap_is_clamp by (assumption || lra). reflexivity.
  - rewrite <- cap_is_clamp by (assumption || lra).
    apply Q.min_compat; [reflexivity | lra].
  - unfold clamp. rewrite Q.min_r by lra. rewrite Q.max_r by lra. lra.
Qed.

Lemma recoverTowardsBase_cases cfg avg pending window rate :
  recoverTowardsBase cfg avg pending window rate = rate
  \/ (avg < 400 /\ pending = 0%Z /\ (5 <= List.length window)%nat
      /\ forallb (fun lat => (lat <? 500)%Z) (sliceLast 5 window) = true
      /\ rate < frameRate cfg
      /\ recoverTowardsBase cfg avg pending window rate
         = Qmin (frameRate cfg) (rate + (3 # 10))).
Proof.
  unfold recoverTowardsBase.
  destruct (Qltb avg 400) eqn:Ea; [|left; reflexivity].
  destruct (pending =? 0)%Z eqn:Ep; [|left; reflexivity].
  destruct (5 <=? Z.of_nat (List.length window))%Z eqn:El;
    [|left; reflexivity].
  cbn [andb]. cbv zeta.
  destruct (forallb _ _) eqn:Eg; [|left; reflexivity].
  destruct (Qltb rate (frameRate cfg)) eqn:Er; [|left; reflexivity].
  right. cbn [andb].
  apply Qltb_true in Ea. apply Qltb_true in Er.
  apply Z.eqb_eq in Ep. apply Z.leb_le in El.
  repeat (split; [first [assumption | lia]|]). reflexivity.
Qed.

(** C3 (amended): in adaptive mode, with the rate between min and max,
    once the window holds at least 3 entries every result that carries a
    timestamp applies the one step its moving average selects (above
    2000 ms: -1.0, else above 1000 ms: -0.5, else below 300 ms: +0.5,
    else below 500 ms: +0.2, else none), clamped to [min, max]; only the
    recovery towards the base rate may follow it.  With base 5, min 2 and
    max 10, evaluations at an average of 2500 ms take the rate through
    5, 4, 3, 2, and it stays at 2 or above whatever follows. *)
Theorem C3_latency_band_adjustment :
  (forall cfg msg ts now s,
      adaptiveFrameRate cfg = true ->
      invalidFrame msg = false ->
      timestamp msg = Some ts ->
      ts <> 0%Z ->
      rateInRange cfg (currentAdaptiveFrameRate s) ->
      let window := pushLatency (now - ts) (processingLatencies s) in
      (3 <= List.length window)%nat ->
      let banded :=
        clamp (minFrameRate cfg) (maxFrameRate cfg)
              (currentAdaptiveFrameRate s + spec_delta (average window)) in
      let rate' :=
        currentAdaptiveFrameRate
          (fst (step cfg (ProcessedFrame msg DrawOk now) s)) in
      rate' == banded
      \/ (average window < 400 /\ pendingFrames s = 0%Z
          /\ banded < frameRate cfg
          /\ rate' == Qmin (frameRate cfg) (banded + (3 # 10))))
  /\ (let s := run defaultSettings slowStart initialState in
      currentAdaptiveFrameRate s = 5
      /\ rateTrace defaultSettings slowResults s = [4; 3; 2; 2]
      /\ Forall (fun w => (3 <= List.length w)%nat /\ average w == 2500)
                (windowTrace defaultSettings slowResults s)
      /\ forall evs,
           2 <= currentAdaptiveFrameRate
                  (run defaultSettings (slowStart ++ slowResults ++ evs)
                     initialState)).
Proof.
  split.
  - intros cfg msg ts now s Ha Hv Hts Hnz Hr window Hlen banded rate'.
    subst rate'. cbn [step].
    rewrite (processedFrame_ok_rate cfg msg ts now s Hv Hts Hnz).
    cbv zeta. fold window. rewrite Ha.
    assert (Hl : (3 <=? Z.of_nat (List.length window))%Z = true)
      by (apply Z.leb_le; lia).
    rewrite Hl. cbn [andb].
    pose proof (adjustByLatency_spec cfg (average window) _ Hr) as Hspec.
    fold banded in Hspec.
    destruct (recoverTowardsBase_cases cfg (average window) (pendingFrames s)
                window
                (adjustByLatency cfg (average window)
                   (currentAdaptiveFrameRate s)))
      as [Hsame | (Havg & Hp & _ & _ & Hlt & Hrec)].
    + left. rewrite Hsame. exact Hspec.
    + right. rewrite Hrec.
      split; [assumption|]. split; [assumption|].
      split; [rewrite <- Hspec; assumption|].
      apply Q.min_compat; [reflexivity|]. rewrite Hspec. reflexivity.
  - cbv zeta.
    split; [vm_compute; reflexivity|]. split; [vm_compute; reflexivity|].
    split.
    + vm_compute. repeat constructor.
    + intro evs. rewrite app_assoc, run_app.
      pose proof (run_rate defaultSettings evs
                    (run defaultSettings (slowStart ++ slowResults)
                       initialState)) as H.
      destruct H as [H _].
      * split; vm_compute; discriminate.
      * split; vm_compute; discriminate.
      * exact H.
Qed.

Lemma C3_latency_band_adjustment_witness :
  let s := run defaultSettings slowStart initialState in
  let rate' := currentAdaptiveFrameRate
                 (fst (step defaultSettings (resultAfter 2500 6000) s)) in
  currentAdaptiveFrameRate s = 5 /\ rate' == 4.
Proof.
  cbv zeta. split; [reflexivity|].
  destruct (proj1 C3_latency_band_adjustment defaultSettings
              (frameEchoing 3500) 3500%Z 6000%Z
              (run defaultSettings slowStart initialState)
              eq_refl eq_refl eq_refl)
    as [H | (Havg & _)].
  - discriminate.
  - split; vm_compute; discriminate.
  - vm_compute. lia.
  - exact H.
  - vm_compute in Havg. discriminate.
Defined.

(** C3 as stated fails: with adaptive mode switched off, a third sample
    brings the window to 3 entries with an average of 2500 ms, and the
    rate is left at 5. *)
Lemma C3_no_adjustment_when_not_adaptive :
  let s := run fixedRateSettings slowStart initialState in
  let s' := fst (step fixedRateSettings (resultAfter 2500 6000) s) in
  processingLatencies s' = [2500; 2500; 2500]%Z
  /\ average (processingLatencies s') == 2500
  /\ currentAdaptiveFrameRate s = 5
  /\ currentAdaptiveFrameRate s' = 5
  /\ ~ currentAdaptiveFrameRate s'
       == clamp (minFrameRate fixedRateSettings)
                (maxFrameRate fixedRateSettings)
                (currentAdaptiveFrameRate s - 1).
Proof.
  cbv zeta.
  split; [reflexivity|]. split; [reflexivity|].
  split; [reflexivity|]. split; [reflexivity|].
  vm_compute. discriminate.
Qed.

(** ** Recovery towards the base rate *)

Lemma sliceLast_mostRecent n window :
  sliceLast n window = rev (mostRecent n window).
Proof.
  unfold sliceLast, mostRecent.
  rewrite firstn_rev, rev_involutive. reflexivity.
Qed.

Lemma forallb_rev {A} (p : A -> bool) (xs : list A) :
  forallb p (rev xs) = forallb p xs.
Proof.
  induction xs as [|x xs IH]; [reflexivity|].
  cbn. rewrite forallb_app, IH. cbn. rewrite andb_true_r. apply andb_comm.
Qed.

Lemma allGood_mostRecent window :
  Forall (fun lat => (lat < 500)%Z) (mostRecent 5 window) ->
  forallb (fun lat => (lat <? 500)%Z) (sliceLast 5 window) = true.
Proof.
  intro H. rewrite sliceLast_mostRecent, forallb_rev.
  apply forallb_forall. intros x Hx.
  rewrite Forall_forall in H. apply Z.ltb_lt. apply H. assumption.
Qed.

(** When the recovery fires.  In adaptive mode, at an evaluation where
    the window holds at least 5 entries, the average of the whole window
    is below 400 ms, the 5 most recent latencies are all below 500 ms,
    [pendingFrames] reads 0 on entry to the handler, and the rate after
    the latency step is still below the base rate, the rate goes up by
    0.3 towards the base rate, once, without exceeding it. *)
Lemma recovery_towards_base :
  forall cfg msg ts now s,
    adaptiveFrameRate cfg = true ->
    invalidFrame msg = false ->
    timestamp msg = Some ts ->
    ts <> 0%Z ->
    let window := pushLatency (now - ts) (processingLatencies s) in
    (5 <= List.length window)%nat ->
    average window < 400 ->
    Forall (fun lat => (lat < 500)%Z) (mostRecent 5 window) ->
    pendingFrames s = 0%Z ->
    let stepped :=
      Qmin (maxFrameRate cfg)
           (currentAdaptiveFrameRate s + spec_delta (average window)) in
    stepped < frameRate cfg ->
    let rate' :=
      currentAdaptiveFrameRate
        (fst (step cfg (ProcessedFrame msg DrawOk now) s)) in
    rate' == Qmin (frameRate cfg) (stepped + (3 # 10))
    /\ stepped < rate'
    /\ rate' <= stepped + (3 # 10)
    /\ rate' <= frameRate cfg.
Proof.
  intros cfg msg ts now s Ha Hv Hts Hnz window Hlen Havg Hgood Hp stepped
         Hlt rate'.
  assert (Hstep : adjustByLatency cfg (average window)
                    (currentAdaptiveFrameRate s) == stepped).
  { unfold adjustByLatency, stepped, spec_delta.
    assert (E1 : Qltb 2000 (average window) = false)
      by (apply Qltb_false; lra).
    assert (E2 : Qltb 1000 (average window) = false)
      by (apply Qltb_false; lra).
    rewrite E1, E2.
    destruct (Qltb (average window) 300); [reflexivity|].
    assert (E3 : Qltb (average window) 500 = true)
      by (apply Qltb_true; lra).
    rewrite E3. apply Q.min_compat; [reflexivity | lra]. }
  assert (Hrate : rate' == Qmin (frameRate cfg) (stepped + (3 # 10))).
  { subst rate'. cbn [step].
    rewrite (processedFrame_ok_rate cfg msg ts now s Hv Hts Hnz).
    cbv zeta. fold window. rewrite Ha.
    assert (Hl : (3 <=? Z.of_nat (List.length window))%Z = true)
      by (apply Z.leb_le; lia).
    rewrite Hl. cbn [andb].
    unfold recoverTowardsBase.
    assert (E4 : Qltb (average window) 400 = true)
      by (apply Qltb_true; assumption).
    assert (E5 : (5 <=? Z.of_nat (List.length window))%Z = true)
      by (apply Z.leb_le; lia).
    assert (E6 : Qltb (adjustByLatency cfg (average window)
                         (currentAdaptiveFrameRate s)) (frameRate cfg) = true)
      by (apply Qltb_true; rewrite Hstep; assumption).
    rewrite E4, Hp, E5, (allGood_mostRecent window Hgood), E6. cbn.
    apply Q.min_compat; [reflexivity|]. rewrite Hstep. reflexivity. }
  split; [exact Hrate|].
  rewrite Hrate.
  split; [apply Q.min_glb_lt; [assumption | lra]|].
  split; [apply Q.le_min_r | apply Q.le_min_l].
Qed.

Lemma recovery_towards_base_example :
  let rate' := currentAdaptiveFrameRate
                 (fst (step defaultSettings (resultAfter 100 28000)
                         flooredQuick)) in
  currentAdaptiveFrameRate flooredQuick = 2
  /\ pendingFrames flooredQuick = 0%Z
  /\ processingLatencies flooredQuick
     = [2500; 2500; 100; 100; 100; 100; 100; 100; 100; 100]%Z
  /\ rate' == 25 # 10.
Proof.
  cbv zeta.
  split; [vm_compute; reflexivity|]. split; [vm_compute; reflexivity|].
  split; [vm_compute; reflexivity|].
  destruct (recovery_towards_base defaultSettings (frameEchoing 27900)
              27900%Z 28000%Z flooredQuick eq_refl eq_refl eq_refl)
    as (H & _).
  - discriminate.
  - vm_compute. lia.
  - vm_compute. reflexivity.
  - vm_compute. repeat constructor.
  - vm_compute. reflexivity.
  - vm_compute. reflexivity.
  - apply (Qeq_trans _ _ _ H). vm_compute. reflexivity.
Defined.

(** The guard on the average of the whole window.  After five slow
    results have taken the rate down to 2, five results of 499 ms arrive
    with nothing pending.  At the fifth, the 5 most recent latencies are
    all below 500 ms and [pendingFrames] is 0, but the average of the
    whole window is 1499.5 ms, and the rate stays at 2. *)
Lemma no_recovery_when_window_average_high :
  let s := run defaultSettings
             (slowStart ++ slowResults ++ firstn 4 quickResults)
             initialState in
  let s' := fst (step defaultSettings (resultAfter 499 14000) s) in
  Forall (fun lat => (lat < 500)%Z) (mostRecent 5 (processingLatencies s'))
  /\ pendingFrames s = 0%Z
  /\ pendingFrames s' = 0%Z
  /\ currentAdaptiveFrameRate s = 2
  /\ currentAdaptiveFrameRate s < frameRate defaultSettings
  /\ currentAdaptiveFrameRate s' = 2
  /\ ~ currentAdaptiveFrameRate s'
       == Qmin (frameRate defaultSettings)
               (currentAdaptiveFrameRate s + (3 # 10)).
Proof.
  cbv zeta.
  split; [vm_compute; repeat constructor|].
  split; [vm_compute; reflexivity|]. split; [vm_compute; reflexivity|].
  split; [vm_compute; reflexivity|]. split; [vm_compute; reflexivity|].
  split; [vm_compute; reflexivity|].
  vm_compute. discriminate.
Qed.

(** The recovery is decided on the count read on entry to the handler:
    while a frame is counted as pending, a rendered result applies the
    latency step alone. *)
Lemma recovery_skipped_while_pending cfg msg ts now s :
  invalidFrame msg = false ->
  timestamp msg = Some ts ->
  ts <> 0%Z ->
  pendingFrames s <> 0%Z ->
  let window := pushLatency (now - ts) (processingLatencies s) in
  currentAdaptiveFrameRate
    (fst (step cfg (ProcessedFrame msg DrawOk now) s))
  = if adaptiveFrameRate cfg && (3 <=? Z.of_nat (List.length window))%Z
    then adjustByLatency cfg (average window) (currentAdaptiveFrameRate s)
    else currentAdaptiveFrameRate s.
Proof.
  intros Hv Hts Hnz Hp window. cbn [step].
  rewrite (processedFrame_ok_rate cfg msg ts now s Hv Hts Hnz).
  cbv zeta. fold window.
  destruct (adaptiveFrameRate cfg && (3 <=? Z.of_nat (List.length window))%Z);
    [|reflexivity].
  unfold recoverTowardsBase.
  apply Z.eqb_neq in Hp. rewrite Hp, andb_false_r. reflexivity.
Qed.

(** C5: evaluation at the failing input.  Every result of the session
    answers the one frame sent before it, so at most one frame is ever
    pending and none is left after a result.  When the ninth fast result
    arrives the rate is 2, below the base rate 5; the window then holds
    [2500; 100 x 9], its 5 most recent latencies are all below 500 ms
    and its average is 340 ms.  The handler reads [pendingFrames] = 1,
    the frame it is about to take off, so the recovery is skipped and
    the rate ends at 2.2; on the count it leaves behind, 0, the same
    guard gives 2.5. *)
Theorem C5_recovery_skipped_for_answered_frame :
  let before := run defaultSettings
                  (answeredSession ++ [FrameLoaded (8 # 10) 25000])
                  initialState in
  let after := fst (step defaultSettings (resultAfter 100 25100) before) in
  let window := processingLatencies after in
  forallb (fun p => (p <=? 1)%Z)
    (pendingTrace defaultSettings
       (answeredSession ++ roundTrip 25000 100) initialState) = true
  /\ pendingFrames before = 1%Z
  /\ pendingFrames after = 0%Z
  /\ window = [2500; 100; 100; 100; 100; 100; 100; 100; 100; 100]%Z
  /\ Forall (fun lat => (lat < 500)%Z) (mostRecent 5 window)
  /\ average window == 340
  /\ currentAdaptiveFrameRate before = 2
  /\ currentAdaptiveFrameRate after == 11 # 5
  /\ ~ currentAdaptiveFrameRate after
       == Qmin (frameRate defaultSettings)
               (currentAdaptiveFrameRate before + (2 # 10) + (3 # 10))
  /\ recoverTowardsBase defaultSettings (average window)
       (pendingFrames after) window
       (adjustByLatency defaultSettings (average window)
          (currentAdaptiveFrameRate before))
     == 5 # 2.
Proof.
  cbv zeta.
  split; [vm_compute; reflexivity|]. split; [vm_compute; reflexivity|].
  split; [vm_compute; reflexivity|]. split; [vm_compute; reflexivity|].
  split; [vm_compute; repeat constructor|].
  split; [vm_compute; reflexivity|]. split; [vm_compute; reflexivity|].
  split; [vm_compute; reflexivity|].
  split; [vm_compute; discriminate|].
  vm_compute. reflexivity.
Qed.

(** ** Invariants over whole sessions *)

(** C9: [pendingFrames] is never negative in a state the script can
    reach from its initial state, whatever the order and number of sends
    and results; a result either leaves the count alone (empty payload)
    or takes one off with a floor of 0. *)
Theorem C9_pending_never_negative :
  forall cfg evs,
    let s := run cfg evs initialState in
    (0 <= pendingFrames s)%Z
    /\ forall msg d now,
         let s' := fst (step cfg (ProcessedFrame msg d now) s) in
         (0 <= pendingFrames s')%Z
         /\ (pendingFrames s' = Z.max 0 (pendingFrames s - 1)
             \/ pendingFrames s' = pendingFrames s).
Proof.
  intros cfg evs s.
  assert (H : (0 <= pendingFrames s)%Z)
    by (apply run_pending_nonneg; cbn; lia).
  split; [exact H|].
  intros msg d now s'. subst s'. cbn [step]. split.
  - apply processedFrame_pending_nonneg. exact H.
  - destruct (invalidFrame msg) eqn:E.
    + right. rewrite processedFrame_invalid by assumption. reflexivity.
    + left. apply processedFrame_valid_pending. assumption.
Qed.

(** C8 (amended): when the configured base rate lies between min and max,
    the adaptive rate satisfies min <= current <= max in every state
    reached from a session start, across every capture tick and every
    result receipt. *)
Theorem C8_rate_within_bounds :
  forall cfg s0 now evs,
    isStreaming s0 = false ->
    minFrameRate cfg <= frameRate cfg ->
    frameRate cfg <= maxFrameRate cfg ->
    let s := run cfg (CameraReady now :: evs) s0 in
    minFrameRate cfg <= currentAdaptiveFrameRate s
    /\ currentAdaptiveFrameRate s <= maxFrameRate cfg.
Proof.
  intros cfg s0 now evs Hoff Hlo Hhi s. subst s. cbn [run step quiet fst].
  apply run_rate; [split; assumption|].
  unfold startFrameCapture. rewrite Hoff. cbn. split; assumption.
Qed.

Lemma C8_rate_within_bounds_witness :
  let s := run defaultSettings
             (CameraReady 1000 :: tl fourUnanswered ++ [Tick true 2000]
                ++ tl slowStart ++ slowResults)
             initialState in
  minFrameRate defaultSettings <= currentAdaptiveFrameRate s
  /\ currentAdaptiveFrameRate s <= maxFrameRate defaultSettings.
Proof.
  apply (C8_rate_within_bounds defaultSettings initialState 1000%Z).
  - reflexivity.
  - vm_compute. discriminate.
  - vm_compute. discriminate.
Defined.

(** C8 as stated fails: the session start copies the base rate into the
    adaptive rate without clamping it, so a base rate of 15 with max 10
    gives a current rate above max; only the rate read by the pacing
    check is clamped. *)
Lemma C8_start_copies_unclamped_base :
  let s := run fastBaseSettings [CameraReady 1000%Z] initialState in
  currentAdaptiveFrameRate s = 15
  /\ ~ currentAdaptiveFrameRate s <= maxFrameRate fastBaseSettings
  /\ getEffectiveFrameRate fastBaseSettings s = 10.
Proof.
  cbv zeta. split; [reflexivity|]. split; [|reflexivity].
  vm_compute. intro H. apply H. reflexivity.
Qed.

(** ** The failsafe monitor *)

(** The callback of the failsafe timer switches to the local video when
    it runs more than 10 s after the last rendered frame. *)
Lemma failsafeFires_late now d s :
  processingFailsafeTimer s = Pending d ->
  (d <= now)%Z ->
  (10000 < now - lastProcessedFrameTime s)%Z ->
  fallbackMode s = false ->
  let r := step defaultSettings (FailsafeFires now) s in
  failsafeState (fst r) = Fallback
  /\ In ShowLocalVideo (snd r)
  /\ processingFailsafeTimer (fst r) = Stale.
Proof.
  intros Ht Hd Hl Hf. cbv zeta. cbn [step]. unfold failsafeFires.
  rewrite Ht. apply Z.leb_le in Hd. rewrite Hd. cbn.
  apply Z.ltb_lt in Hl. rewrite Hl.
  unfold enableFallbackMode. cbn. rewrite Hf. cbn.
  split; [reflexivity|]. split; [right; left; reflexivity | reflexivity].
Qed.

Lemma beforeDraw_failsafe now s :
  fallbackMode (fst (beforeDraw now s)) = false
  /\ processingFailsafeTimer (fst (beforeDraw now s)) = Pending (now + 10000)
  /\ (fallbackMode s = true -> snd (beforeDraw now s) = [ShowCanvas]).
Proof.
  unfold beforeDraw, andThen, disableFallbackMode, quiet.
  destruct (fallbackMode s) eqn:Ef; cbn;
    match goal with |- context [truthy ?t] => destruct (truthy t) end;
    cbn; (split; [assumption || reflexivity|]);
    (split; [reflexivity|]); intro; congruence.
Qed.

Lemma trackLatency_failsafe cfg msg now s :
  fallbackMode (trackLatency cfg msg now s) = fallbackMode s
  /\ processingFailsafeTimer (trackLatency cfg msg now s)
     = processingFailsafeTimer s
  /\ lastProcessedFrameTime (trackLatency cfg msg now s)
     = lastProcessedFrameTime s.
Proof.
  unfold trackLatency.
  destruct (timestamp msg) as [ts|]; [|repeat split].
  destruct (ts =? 0)%Z; [repeat split|]. cbv zeta.
  match goal with |- context [if ?b then _ else _] => destruct b end;
    repeat split.
Qed.

Lemma afterDraw_failsafe cfg msg now s :
  fallbackMode (afterDraw cfg msg now s) = fallbackMode s
  /\ processingFailsafeTimer (afterDraw cfg msg now s)
     = processingFailsafeTimer s
  /\ lastProcessedFrameTime (afterDraw cfg msg now s) = now.
Proof.
  unfold afterDraw, finishPending. cbn.
  destruct (trackLatency_failsafe cfg msg now
              (if truthy (processingTimeoutWarning s)
               then set_processingTimeoutWarning NoTimer
                      (set_lastProcessedFrameTime now s)
               else set_lastProcessedFrameTime now s)) as (Hf & Ht & Hl).
  rewrite Hf, Ht, Hl.
  destruct (truthy (processingTimeoutWarning s)); repeat split.
Qed.

(** A rendered result always brings the display back to the processed
    stream and arms the timer for 10 s from now. *)
Lemma rendered_result_restores_normal cfg msg now s :
  invalidFrame msg = false ->
  let r := step cfg (ProcessedFrame msg DrawOk now) s in
  failsafeState (fst r) = Normal
  /\ processingFailsafeTimer (fst r) = Pending (now + 10000)
  /\ lastProcessedFrameTime (fst r) = now
  /\ (fallbackMode s = true -> snd r = [ShowCanvas]).
Proof.
  intro Hv. cbv zeta. cbn [step]. unfold processedFrame. rewrite Hv.
  destruct (beforeDraw_failsafe now s) as (Hf & Ht & He).
  unfold andThen, quiet, failsafeState.
  destruct (beforeDraw now s) as [s1 e1]. cbn [fst snd] in *.
  destruct (afterDraw_failsafe cfg msg now s1) as (Hf' & Ht' & Hl').
  rewrite Hf', Ht', Hl', Hf, Ht.
  split; [reflexivity|]. split; [reflexivity|]. split; [reflexivity|].
  intro H. rewrite (He H). reflexivity.
Qed.

Lemma step_failsafeIdle cfg ev s :
  armsFailsafe ev = false ->
  failsafeIdle s -> failsafeIdle (fst (step cfg ev s)).
Proof.
  unfold failsafeIdle. intros Hq [Hf Ht].
  destruct ev; try discriminate; cbn [step].
  - destruct (frameInterval s); [|split; assumption].
    unfold captureTick, quiet.
    repeat match goal with
           | |- context [if ?b then _ else _] => destruct b
           end; split; assumption.
  - cbn. destruct (truthy _); split; assumption.
  - unfold stallWarningFires.
    destruct (processingTimeoutWarning s); try (split; assumption).
    destruct (deadline <=? now)%Z; split; assumption.
  - unfold failsafeFires.
    destruct (processingFailsafeTimer s) eqn:E;
      [ split; [assumption | cbn; rewrite E; reflexivity]
      | discriminate Ht
      | split; [assumption | cbn; rewrite E; reflexivity] ].
  - split; assumption.
  - split; assumption.
  - split; assumption.
  - unfold onVisibilityChange, startFrameCapture, stopFrameCapture, quiet.
    destruct hidden; [split; assumption|].
    destruct (hasStream && negb (isStreaming s)); [|split; assumption].
    destruct (isStreaming s); split; assumption.
  - split; assumption.
  - unfold restartFeed, andThen, disableFallbackMode, quiet.
    rewrite Hf. cbn.
    destruct (truthy (processingFailsafeTimer s)); cbn;
      destruct (truthy (processingTimeoutWarning s)); cbn;
      split; first [reflexivity | assumption].
Qed.

Lemma run_failsafeIdle cfg evs : forall s,
  forallb (fun ev => negb (armsFailsafe ev)) evs = true ->
  failsafeIdle s -> failsafeIdle (run cfg evs s).
Proof.
  induction evs as [|ev evs IH]; intros s Hq Hs; [assumption|].
  cbn in Hq. apply andb_true_iff in Hq. destruct Hq as [Hev Hrest].
  cbn [run]. apply IH; [assumption|].
  apply step_failsafeIdle; [|assumption].
  apply negb_true_iff. assumption.
Qed.

Lemma filter_forallb {A} (p : A -> bool) (xs : list A) :
  forallb p (filter p xs) = true.
Proof.
  induction xs as [|x xs IH]; [reflexivity|].
  cbn. destruct (p x) eqn:E; [cbn; rewrite E|]; assumption.
Qed.

(** C1: evaluation at the failing input.  The timer armed by the last
    success runs exactly 10000 ms after it; its test
    [now - lastProcessedFrameTime > 10000] is false, nothing re-arms the
    timer, and the display state stays Normal through every later tick,
    send or timer callback, however long no result arrives. *)
Theorem C1_failsafe_missed_at_deadline :
  let s := run defaultSettings lastSuccessThenTimer initialState in
  lastProcessedFrameTime s = 1500%Z
  /\ failsafeState s = Normal
  /\ processingFailsafeTimer s = Stale
  /\ effects defaultSettings [FailsafeFires 11500%Z]
       (run defaultSettings (removelast lastSuccessThenTimer) initialState)
     = []
  /\ forall later,
       let quietLater := filter (fun ev => negb (armsFailsafe ev)) later in
       failsafeState (run defaultSettings quietLater s) = Normal
       /\ isPending (processingFailsafeTimer
                       (run defaultSettings quietLater s)) = false.
Proof.
  cbv zeta.
  split; [vm_compute; reflexivity|]. split; [vm_compute; reflexivity|].
  split; [vm_compute; reflexivity|]. split; [vm_compute; reflexivity|].
  intro later.
  destruct (run_failsafeIdle defaultSettings
              (filter (fun ev => negb (armsFailsafe ev)) later)
              (run defaultSettings lastSuccessThenTimer initialState))
    as [Hf Ht].
  - apply filter_forallb.
  - split; vm_compute; reflexivity.
  - unfold failsafeState. rewrite Hf. split; [reflexivity | exact Ht].
Qed.

(** ** Timers at the end of a session *)

(** C6 (amended): session stop, tab-hidden and transport disconnect each
    cancel the capture-tick timer, so no tick callback runs afterwards;
    they leave the stall-warning timer as it was; stop and tab-hidden
    leave the failsafe timer as it was, and disconnect arms it for
    10 s. *)
Theorem C6_only_capture_timer_cancelled :
  forall cfg s,
    (let s' := fst (step cfg StopCapture s) in
     frameInterval s' = false /\ isStreaming s' = false
     /\ processingTimeoutWarning s' = processingTimeoutWarning s
     /\ processingFailsafeTimer s' = processingFailsafeTimer s
     /\ forall ready now, step cfg (Tick ready now) s' = (s', []))
    /\ (forall hasStream,
          let s' := fst (step cfg (VisibilityChange true hasStream) s) in
          frameInterval s' = false /\ isStreaming s' = false
          /\ processingTimeoutWarning s' = processingTimeoutWarning s
          /\ processingFailsafeTimer s' = processingFailsafeTimer s
          /\ forall ready now, step cfg (Tick ready now) s' = (s', []))
    /\ (forall at_,
          let s' := fst (step cfg (Disconnect at_) s) in
          frameInterval s' = false /\ isStreaming s' = false
          /\ processingTimeoutWarning s' = processingTimeoutWarning s
          /\ processingFailsafeTimer s' = Pending (at_ + 10000)
          /\ forall ready now, step cfg (Tick ready now) s' = (s', [])).
Proof.
  intros cfg s. cbv zeta. cbn.
  repeat split; reflexivity.
Qed.

(** C6 as stated fails: after the disconnect the session has ended, yet
    the stall-warning timer is still scheduled and the failsafe timer
    has been armed anew; their callbacks run later, and the failsafe
    callback switches the display to the local video. *)
Lemma C6_timers_survive_disconnect :
  let s := run defaultSettings sendThenDisconnect initialState in
  isStreaming s = false
  /\ frameInterval s = false
  /\ processingTimeoutWarning s = Pending 6100
  /\ processingFailsafeTimer s = Pending 12000
  /\ anyTimerScheduled s = true
  /\ processingTimeoutWarning
       (fst (step defaultSettings (StallWarningFires 6100) s)) = Stale
  /\ step defaultSettings (FailsafeFires 12000) s
     = (set_fallbackMode true (set_processingFailsafeTimer Stale s),
        [ConsoleWarn "SafeVision: Enabling fallback mode due to processing issues";
         ShowLocalVideo]).
Proof.
  cbv zeta.
  split; [vm_compute; reflexivity|]. split; [vm_compute; reflexivity|].
  split; [vm_compute; reflexivity|]. split; [vm_compute; reflexivity|].
  split; [vm_compute; reflexivity|]. split; [vm_compute; reflexivity|].
  vm_compute. reflexivity.
Qed.

(** * Further properties of the controller *)

(** ** The latency window *)

Lemma pushLatency_length x xs :
  (List.length xs <= 10)%nat -> (List.length (pushLatency x xs) <= 10)%nat.
Proof.
  intro H. unfold pushLatency.
  destruct (10 <? Z.of_nat (List.length (xs ++ [x])))%Z eqn:E.
  - destruct xs as [|y ys]; cbn in *; rewrite ?length_app; cbn;
      rewrite ?length_app in *; cbn in *; lia.
  - apply Z.ltb_ge in E. lia.
Qed.

Lemma trackLatency_window_length cfg msg now s :
  (List.length (processingLatencies s) <= 10)%nat ->
  (List.length (processingLatencies (trackLatency cfg msg now s)) <= 10)%nat.
Proof.
  intro H. unfold trackLatency.
  destruct (timestamp msg) as [ts|]; [|assumption].
  destruct (ts =? 0)%Z; [assumption|]. cbv zeta.
  match goal with |- context [if ?b then _ else _] => destruct b end;
    cbn; apply pushLatency_length; assumption.
Qed.

Lemma beforeDraw_window now s :
  processingLatencies (fst (beforeDraw now s)) = processingLatencies s.
Proof.
  unfold beforeDraw, andThen, disableFallbackMode, quiet.
  destruct (fallbackMode s); cbn;
    match goal with |- context [truthy ?t] => destruct (truthy t) end;
    reflexivity.
Qed.

Lemma processedFrame_window_length cfg msg d now s :
  (List.length (processingLatencies s) <= 10)%nat ->
  (List.length
     (processingLatencies (fst (processedFrame cfg msg d now s))) <= 10)%nat.
Proof.
  intro H. unfold processedFrame.
  destruct (invalidFrame msg); [assumption|].
  destruct d; try assumption.
  - unfold andThen. destruct (beforeDraw now s) as [s1 e1] eqn:E. cbn.
    change s1 with (fst (s1, e1)). rewrite <- E, beforeDraw_window.
    assumption.
  - unfold andThen, quiet. destruct (beforeDraw now s) as [s1 e1] eqn:E.
    cbn [fst]. unfold afterDraw, finishPending. cbn.
    apply trackLatency_window_length.
    destruct (truthy (processingTimeoutWarning s1)); cbn;
      change s1 with (fst (s1, e1)); rewrite <- E, beforeDraw_window;
      assumption.
Qed.

Lemma step_window_length cfg ev s :
  (List.length (processingLatencies s) <= 10)%nat ->
  (List.length (processingLatencies (fst (step cfg ev s))) <= 10)%nat.
Proof.
  intro H. destruct ev; cbn [step].
  - unfold startFrameCapture. destruct (isStreaming s); cbn; [assumption|lia].
  - destruct (frameInterval s); [|assumption].
    unfold captureTick, quiet.
    repeat match goal with
           | |- context [if ?b then _ else _] => destruct b
           end; assumption.
  - cbn. destruct (truthy _); assumption.
  - unfold stallWarningFires.
    destruct (processingTimeoutWarning s); try assumption.
    destruct (deadline <=? now)%Z; assumption.
  - unfold failsafeFires, enableFallbackMode.
    destruct (processingFailsafeTimer s); try assumption.
    destruct (deadline <=? now)%Z; [|assumption]. cbn.
    destruct (10000 <? now - lastProcessedFrameTime s)%Z; [|assumption].
    destruct (fallbackMode s); assumption.
  - apply processedFrame_window_length. assumption.
  - cbn. lia.
  - assumption.
  - assumption.
  - assumption.
  - unfold onVisibilityChange, startFrameCapture, quiet.
    destruct hidden; [assumption|].
    destruct (hasStream && negb (isStreaming s)); [|assumption].
    destruct (isStreaming s); cbn; [assumption|lia].
  - assumption.
  - unfold restartFeed, andThen, disableFallbackMode, quiet.
    destruct (fallbackMode s); cbn;
      repeat match goal with
             | |- context [truthy ?t] => destruct (truthy t); cbn
             end; assumption.
Qed.

(** X1: the latency window never holds more than 10 entries, in any
    state the script reaches from its initial state. *)
Theorem X1_window_at_most_ten :
  forall cfg evs,
    (List.length (processingLatencies (run cfg evs initialState)) <= 10)%nat.
Proof.
  intros cfg evs.
  assert (H : forall s,
             (List.length (processingLatencies s) <= 10)%nat ->
             (List.length (processingLatencies (run cfg evs s)) <= 10)%nat).
  { induction evs as [|ev evs IH]; intros s Hs; [assumption|].
    cbn [run]. apply IH. apply step_window_length. assumption. }
  apply H. cbn. lia.
Qed.

Lemma sliceLast_short n (xs : list Z) :
  (List.length xs <= n)%nat -> sliceLast n xs = xs.
Proof.
  intro H. unfold sliceLast.
  replace (List.length xs - n)%nat with 0%nat by lia. reflexivity.
Qed.

Lemma sliceLast_length n (xs : list Z) :
  List.length (sliceLast n xs) = Nat.min n (List.length xs).
Proof. unfold sliceLast. rewrite length_skipn. lia. Qed.

Lemma skipn_succ_tl (k : nat) (xs : list Z) :
  skipn (S k) xs = tl (skipn k xs).
Proof.
  revert xs. induction k as [|k IH]; intros [|y ys]; try reflexivity.
  exact (IH ys).
Qed.

Lemma pushLatency_sliceLast x xs :
  pushLatency x (sliceLast 10 xs) = sliceLast 10 (xs ++ [x]).
Proof.
  unfold pushLatency.
  destruct (Nat.le_gt_cases 10 (List.length xs)) as [Hfull | Hshort].
  - assert (Hl : List.length (sliceLast 10 xs ++ [x]) = 11%nat)
      by (rewrite length_app, sliceLast_length; cbn [List.length]; lia).
    rewrite Hl.
    change (10 <? Z.of_nat 11)%Z with true. cbv iota.
    unfold sliceLast. rewrite length_app. cbn [List.length].
    replace (List.length xs + 1 - 10)%nat with (S (List.length xs - 10))
      by lia.
    rewrite skipn_app.
    replace (S (List.length xs - 10) - List.length xs)%nat with 0%nat by lia.
    change (skipn 0 [x]) with [x].
    rewrite skipn_succ_tl.
    destruct (skipn (List.length xs - 10) xs) as [|y ys] eqn:E;
      [|reflexivity].
    apply (f_equal (@List.length Z)) in E.
    rewrite length_skipn in E. cbn in E. lia.
  - rewrite (sliceLast_short 10 xs) by lia.
    assert (Hl : (10 <? Z.of_nat (List.length (xs ++ [x])))%Z = false)
      by (apply Z.ltb_ge; rewrite length_app; cbn; lia).
    rewrite Hl. symmetry. apply sliceLast_short.
    rewrite length_app. cbn. lia.
Qed.

(** X2: the window is a first-in first-out buffer of capacity 10: after
    any number of latencies were recorded into an empty window, it holds
    the (at most) 10 most recent ones, oldest first. *)
Theorem X2_window_keeps_ten_most_recent :
  forall ls, windowAfter ls = sliceLast 10 ls.
Proof.
  intro ls. unfold windowAfter.
  induction ls as [|x ls IH] using rev_ind; [reflexivity|].
  rewrite fold_left_app. cbn [fold_left]. rewrite IH.
  apply pushLatency_sliceLast.
Qed.

(** ** The transmission gate *)

(** X3: on a tick that passes the pacing check with 2 or 3 frames pending
    while a frame is marked as being processed, the frame is skipped: the
    drop counter grows by 1, nothing is encoded or sent, and neither the
    rate nor the pacing clock nor the pending count changes. *)
Theorem X3_soft_skip :
  forall cfg now s,
    frameInterval s = true ->
    tooSoon (now - lastFrameSentTime s) (getEffectiveFrameRate cfg s) = false ->
    isFrameBeingProcessed s = true ->
    (1 < pendingFrames s <= 3)%Z ->
    let r := step cfg (Tick true now) s in
    frameDropCount (fst r) = (frameDropCount s + 1)%Z
    /\ snd r = []
    /\ currentAdaptiveFrameRate (fst r) = currentAdaptiveFrameRate s
    /\ pendingFrames (fst r) = pendingFrames s
    /\ lastFrameSentTime (fst r) = lastFrameSentTime s
    /\ frameCount (fst r) = frameCount s.
Proof.
  intros cfg now s Hlive Hpace Hflag [Hlo Hhi]. cbv zeta. cbn [step].
  rewrite Hlive. unfold captureTick. cbn [negb]. rewrite Hpace, Hflag.
  assert (E1 : (3 <? pendingFrames s)%Z = false) by (apply Z.ltb_ge; lia).
  assert (E2 : (1 <? pendingFrames s)%Z = true) by (apply Z.ltb_lt; lia).
  rewrite E1, E2. cbn.
  split; [reflexivity|]. split; [reflexivity|]. split; [reflexivity|].
  split; [reflexivity|]. split; reflexivity.
Qed.

Lemma X3_soft_skip_witness :
  let s := run defaultSettings twoUnanswered initialState in
  let r := step defaultSettings (Tick true 2000) s in
  pendingFrames s = 2%Z
  /\ frameDropCount (fst r) = 1%Z
  /\ snd r = []
  /\ currentAdaptiveFrameRate (fst r) = 5.
Proof.
  pose proof (X3_soft_skip defaultSettings 2000
                (run defaultSettings twoUnanswered initialState)
                eq_refl eq_refl eq_refl) as H.
  cbv zeta in H. destruct H as (Hd & He & Hr & _).
  - vm_compute. split; [reflexivity | discriminate].
  - cbv zeta.
    split; [vm_compute; reflexivity|].
    split; [rewrite Hd; vm_compute; reflexivity|].
    split; [exact He|].
    rewrite Hr. vm_compute. reflexivity.
Defined.

(** X4: a capture tick never changes [pendingFrames], the in-flight
    flag or the latency window, and never emits a frame itself.  It has
    one of three outcomes: nothing at all; one counted drop with nothing
    encoded; or an accepted frame, which advances [frameCount] by 1, sets
    the pacing clock to [now] and asks for exactly one encoding, and
    which only happens with at most 3 frames pending. *)
Theorem X4_tick_outcomes :
  forall cfg ready now s,
    let r := step cfg (Tick ready now) s in
    pendingFrames (fst r) = pendingFrames s
    /\ isFrameBeingProcessed (fst r) = isFrameBeingProcessed s
    /\ processingLatencies (fst r) = processingLatencies s
    /\ (r = (s, [])
        \/ (snd r = []
            /\ frameDropCount (fst r) = (frameDropCount s + 1)%Z
            /\ frameCount (fst r) = frameCount s
            /\ lastFrameSentTime (fst r) = lastFrameSentTime s)
        \/ (snd r = [EncodeFrame (dynamicQuality cfg s)]
            /\ frameCount (fst r) = (frameCount s + 1)%Z
            /\ lastFrameSentTime (fst r) = now
            /\ frameDropCount (fst r) = frameDropCount s
            /\ currentAdaptiveFrameRate (fst r) = currentAdaptiveFrameRate s
            /\ (pendingFrames s <= 3)%Z
            /\ ready = true /\ frameInterval s = true)).
Proof.
  intros cfg ready now s. cbv zeta. cbn [step].
  destruct (frameInterval s) eqn:Hlive;
    [|cbn; repeat (split; [reflexivity|]); left; reflexivity].
  unfold captureTick, quiet.
  destruct ready; cbn [negb];
    [|cbn; repeat (split; [reflexivity|]); left; reflexivity].
  destruct (tooSoon _ _);
    [cbn; repeat (split; [reflexivity|]); left; reflexivity|].
  destruct (3 <? pendingFrames s)%Z eqn:E3.
  - destruct (adaptiveFrameRate cfg); cbn;
      repeat (split; [reflexivity|]); right; left;
      repeat (split; [reflexivity|]); reflexivity.
  - destruct (isFrameBeingProcessed s && (1 <? pendingFrames s)%Z); cbn.
    + repeat (split; [reflexivity|]); right; left;
        repeat (split; [reflexivity|]); reflexivity.
    + repeat (split; [reflexivity|]). right; right.
      apply Z.ltb_ge in E3.
      split; [reflexivity|]. split; [reflexivity|]. split; [reflexivity|].
      split; [reflexivity|]. split; [reflexivity|].
      split; [assumption|]. split; reflexivity.
Qed.

(** X5: with a configured quality of at least 0.5, the quality chosen
    for a frame lies between 0.3 and the configured quality; without
    adaptive mode it is the configured quality. *)
Theorem X5_quality_bounds :
  forall cfg s,
    (1 # 2) <= videoQuality cfg ->
    (3 # 10) <= dynamicQuality cfg s
    /\ dynamicQuality cfg s <= videoQuality cfg
    /\ (adaptiveFrameRate cfg = false ->
        dynamicQuality cfg s = videoQuality cfg).
Proof.
  intros cfg s Hv. unfold dynamicQuality.
  destruct (adaptiveFrameRate cfg);
    [|split; [lra|]; split; [lra | reflexivity]].
  assert (H3 : (3 # 10) <= Qmax (3 # 10) (videoQuality cfg - (3 # 10))
               /\ Qmax (3 # 10) (videoQuality cfg - (3 # 10))
                  <= videoQuality cfg)
    by (split; [apply Q.le_max_l | apply Q.max_lub; lra]).
  assert (H5 : (3 # 10) <= Qmax (5 # 10) (videoQuality cfg - (2 # 10))
               /\ Qmax (5 # 10) (videoQuality cfg - (2 # 10))
                  <= videoQuality cfg).
  { split; [eapply Qle_trans; [|apply Q.le_max_l]; lra
           | apply Q.max_lub; lra]. }
  assert (H4 : (3 # 10) <= Qmax (4 # 10) (videoQuality cfg - (2 # 10))
               /\ Qmax (4 # 10) (videoQuality cfg - (2 # 10))
                  <= videoQuality cfg).
  { split; [eapply Qle_trans; [|apply Q.le_max_l]; lra
           | apply Q.max_lub; lra]. }
  destruct (2 <? pendingFrames s)%Z;
    [destruct H3; split; [assumption|]; split; [assumption | discriminate]|].
  destruct (1 <? pendingFrames s)%Z;
    [destruct H5; split; [assumption|]; split; [assumption | discriminate]|].
  destruct (processingLatencies s);
    [split; [lra|]; split; [lra | discriminate]|].
  destruct (Qltb 1000 _);
    [destruct H4; split; [assumption|]; split; [assumption | discriminate]|].
  split; [lra|]; split; [lra | discriminate].
Qed.

Lemma X5_quality_bounds_witness :
  let s := run defaultSettings fourUnanswered initialState in
  (3 # 10) <= dynamicQuality defaultSettings s
  /\ dynamicQuality defaultSettings s <= 8 # 10
  /\ dynamicQuality defaultSettings s == 5 # 10.
Proof.
  destruct (X5_quality_bounds defaultSettings
              (run defaultSettings fourUnanswered initialState))
    as (Hlo & Hhi & _).
  - vm_compute. discriminate.
  - cbv zeta. split; [exact Hlo|]. split; [exact Hhi|].
    vm_compute. reflexivity.
Defined.

(** X6: in adaptive mode with min <= max, the rate read by the pacing
    check lies between min and max whatever rate is stored, and it is
    the stored rate when that lies between the bounds; without adaptive
    mode it is the configured rate. *)
Theorem X6_effective_rate_clamped :
  forall cfg s,
    minFrameRate cfg <= maxFrameRate cfg ->
    (adaptiveFrameRate cfg = true ->
       minFrameRate cfg <= getEffectiveFrameRate cfg s
       /\ getEffectiveFrameRate cfg s <= maxFrameRate cfg
       /\ (rateInRange cfg (currentAdaptiveFrameRate s) ->
           getEffectiveFrameRate cfg s == currentAdaptiveFrameRate s))
    /\ (adaptiveFrameRate cfg = false ->
        getEffectiveFrameRate cfg s = frameRate cfg).
Proof.
  intros cfg s Hb. unfold getEffectiveFrameRate.
  destruct (adaptiveFrameRate cfg); split; try discriminate;
    try (intros _; reflexivity).
  intros _.
  split; [apply Qmax_floor|].
  split; [apply Qmax_below; [assumption | apply Qmin_cap]|].
  intros [Hlo Hhi].
  rewrite (Q.min_r _ _ Hhi). apply Q.max_r. assumption.
Qed.

Lemma X6_effective_rate_clamped_witness :
  let s := run fastBaseSettings [CameraReady 1000%Z] initialState in
  currentAdaptiveFrameRate s = 15
  /\ minFrameRate fastBaseSettings <= getEffectiveFrameRate fastBaseSettings s
  /\ getEffectiveFrameRate fastBaseSettings s <= maxFrameRate fastBaseSettings.
Proof.
  destruct (X6_effective_rate_clamped fastBaseSettings
              (run fastBaseSettings [CameraReady 1000%Z] initialState))
    as [H _].
  - vm_compute. discriminate.
  - destruct (H eq_refl) as (Hlo & Hhi & _).
    cbv zeta. split; [reflexivity|]. split; assumption.
Defined.

(** ** Pacing *)

Lemma tooSoon_false elapsed rate :
  tooSoon elapsed rate = false ->
  ~ rate == 0 /\ 1000 / rate <= inject_Z elapsed.
Proof.
  unfold tooSoon. destruct (Qeq_bool rate 0) eqn:E; [discriminate|].
  intro H. apply Qltb_false in H. split; [|assumption].
  intro Hz. apply Qeq_eq_bool in Hz. congruence.
Qed.

Lemma tick_encodes_only_when_paced cfg ready now s :
  snd (step cfg (Tick ready now) s) <> [] ->
  tooSoon (now - lastFrameSentTime s) (getEffectiveFrameRate cfg s) = false.
Proof.
  cbn [step]. destruct (frameInterval s); [|cbn; congruence].
  unfold captureTick, quiet. destruct ready; cbn [negb]; [|cbn; congruence].
  destruct (tooSoon _ _); [cbn; congruence | reflexivity].
Qed.

(** X7: the pacing check of a tick.  The pacing clock is
    [lastFrameSentTime]: a tick that accepts a frame sets it to the
    time of the tick, and a capture start puts it back to 0.  A
    tick accepts a frame only if elapsed * rate >= 1000, where elapsed
    is the time of the tick minus the pacing clock and rate is the
    effective frame rate, when that is positive; in adaptive mode with
    min <= max this gives elapsed * max >= 1000.  With an effective
    rate of 0 no tick does anything. *)
Theorem X7_accepted_frames_are_paced :
  forall cfg ready now s,
    let rate := getEffectiveFrameRate cfg s in
    let elapsed := inject_Z (now - lastFrameSentTime s) in
    (snd (step cfg (Tick ready now) s) <> [] ->
     0 < rate ->
     1000 <= elapsed * rate
     /\ (adaptiveFrameRate cfg = true ->
         minFrameRate cfg <= maxFrameRate cfg ->
         1000 <= elapsed * maxFrameRate cfg))
    /\ (rate == 0 -> step cfg (Tick ready now) s = (s, []))
    /\ (snd (step cfg (Tick ready now) s) <> [] ->
        lastFrameSentTime (fst (step cfg (Tick ready now) s)) = now)
    /\ (isStreaming s = false ->
        lastFrameSentTime (startFrameCapture cfg s) = 0%Z).
Proof.
  intros cfg ready now s rate elapsed.
  assert (Hclock : snd (step cfg (Tick ready now) s) <> [] ->
                   lastFrameSentTime (fst (step cfg (Tick ready now) s)) = now).
  { cbn [step]. destruct (frameInterval s); [|cbn; congruence].
    unfold captureTick, quiet. destruct ready; cbn [negb]; [|cbn; congruence].
    destruct (tooSoon _ _); [cbn; congruence|].
    destruct (3 <? pendingFrames s)%Z; [cbn; congruence|].
    destruct (isFrameBeingProcessed s && (1 <? pendingFrames s)%Z);
      [cbn; congruence|].
    intros _. reflexivity. }
  split; [|split; [|split; [exact Hclock|]]];
    [| |intro Hoff; unfold startFrameCapture; rewrite Hoff; reflexivity].
  - intros Hout Hpos.
    apply tick_encodes_only_when_paced in Hout.
    apply tooSoon_false in Hout. fold rate in Hout. fold elapsed in Hout.
    destruct Hout as [Hnz Hle].
    assert (H1 : 1000 <= elapsed * rate).
    { apply (Qmult_le_compat_r _ _ rate) in Hle; [|apply Qlt_le_weak; exact Hpos].
      eapply Qle_trans; [|exact Hle].
      unfold Qdiv.
      rewrite <- Qmult_assoc, (Qmult_comm (/ rate)), Qmult_inv_r by exact Hnz.
      rewrite Qmult_1_r. apply Qle_refl. }
    split; [exact H1|].
    intros Ha Hb.
    assert (Hr : rate <= maxFrameRate cfg).
    { subst rate. unfold getEffectiveFrameRate. rewrite Ha.
      apply Qmax_below; [assumption | apply Qmin_cap]. }
    assert (He : 0 <= elapsed).
    { destruct (Qlt_le_dec elapsed 0) as [Hneg|]; [|assumption].
      exfalso.
      assert (elapsed * rate <= 0 * rate)
        by (apply Qmult_le_compat_r; [apply Qlt_le_weak; exact Hneg
                                     | apply Qlt_le_weak; exact Hpos]).
      lra. }
    eapply Qle_trans; [exact H1|].
    rewrite (Qmult_comm elapsed rate), (Qmult_comm elapsed (maxFrameRate cfg)).
    apply Qmult_le_compat_r; assumption.
  - intro Hz. cbn [step].
    destruct (frameInterval s); [|reflexivity].
    unfold captureTick, quiet. destruct ready; cbn [negb]; [|reflexivity].
    unfold tooSoon. fold rate.
    rewrite (Qeq_eq_bool _ _ Hz). reflexivity.
Qed.

Lemma X7_accepted_frames_are_paced_witness :
  let s := run defaultSettings [CameraReady 1000%Z] initialState in
  snd (step defaultSettings (Tick true 1200) s) = [EncodeFrame (8 # 10)]
  /\ 1000 <= inject_Z (1200 - lastFrameSentTime s)
             * getEffectiveFrameRate defaultSettings s.
Proof.
  cbv zeta. split; [vm_compute; reflexivity|].
  destruct (X7_accepted_frames_are_paced defaultSettings true 1200%Z
              (run defaultSettings [CameraReady 1000%Z] initialState))
    as [H _].
  destruct H as [H _].
  - vm_compute. discriminate.
  - vm_compute. reflexivity.
  - exact H.
Defined.

(** ** Display switches *)

Lemma beforeDraw_effects now s :
  snd (beforeDraw now s) = if fallbackMode s then [ShowCanvas] else [].
Proof.
  unfold beforeDraw, andThen, disableFallbackMode, quiet.
  destruct (fallbackMode s); reflexivity.
Qed.

Ltac solve_display :=
  cbn; repeat split; intros;
  repeat match goal with
         | H : _ /\ _ |- _ => destruct H
         | H : _ \/ _ |- _ => destruct H
         | H : False |- _ => destruct H
         end;
  try congruence; try discriminate; auto.

Ltac by_flag s :=
  let Ef := fresh "Ef" in
  cbn; destruct (fallbackMode s) eqn:Ef; cbn; rewrite ?Ef; solve_display.

(** The display effects of a callback mirror what it does to the fallback flag. *)
Lemma display_follows_fallback_flag :
  forall cfg ev s,
    let r := step cfg ev s in
    (In ShowLocalVideo (snd r)
     <-> fallbackMode s = false /\ fallbackMode (fst r) = true)
    /\ (In ShowCanvas (snd r)
        <-> fallbackMode s = true /\ fallbackMode (fst r) = false).
Proof.
  intros cfg ev s. cbv zeta.
  destruct ev; cbn [step].
  - unfold startFrameCapture, quiet.
    destruct (isStreaming s); by_flag s.
  - destruct (frameInterval s); [|by_flag s].
    unfold captureTick, quiet.
    repeat match goal with
           | |- context [if ?b then _ else _] => destruct b
           end; by_flag s.
  - unfold frameLoaded. cbn. destruct (truthy _); by_flag s.
  - unfold stallWarningFires, quiet.
    destruct (processingTimeoutWarning s);
      try destruct (deadline <=? now)%Z; by_flag s.
  - unfold failsafeFires, enableFallbackMode, quiet.
    destruct (processingFailsafeTimer s);
      try destruct (deadline <=? now)%Z; cbn;
      try destruct (10000 <? now - lastProcessedFrameTime s)%Z;
      by_flag s.
  - unfold processedFrame.
    destruct (invalidFrame msg); [by_flag s|].
    destruct d.
    + by_flag s.
    + by_flag s.
    + pose proof (beforeDraw_effects now s) as He.
      destruct (beforeDraw_failsafe now s) as (Hf & _ & _).
      unfold andThen. destruct (beforeDraw now s) as [s1 e1].
      cbn [fst snd] in *. subst e1.
      destruct (fallbackMode s) eqn:Ef; cbn; rewrite ?Hf; solve_display.
    + pose proof (beforeDraw_effects now s) as He.
      destruct (beforeDraw_failsafe now s) as (Hf & _ & _).
      unfold andThen, quiet. destruct (beforeDraw now s) as [s1 e1].
      cbn [fst snd] in *. subst e1.
      destruct (afterDraw_failsafe cfg msg now s1) as (Hf' & _ & _).
      rewrite Hf', Hf.
      destruct (fallbackMode s) eqn:Ef; solve_display.
  - by_flag s.
  - by_flag s.
  - by_flag s.
  - by_flag s.
  - unfold onVisibilityChange, startFrameCapture, quiet.
    destruct hidden; [|destruct (hasStream && negb (isStreaming s));
                        [destruct (isStreaming s)|]]; by_flag s.
  - by_flag s.
  - unfold restartFeed, andThen, disableFallbackMode, quiet.
    destruct (fallbackMode s) eqn:Ef; cbn;
      destruct (truthy (processingFailsafeTimer s)); cbn;
      destruct (truthy (processingTimeoutWarning s)); cbn;
      rewrite ?Ef; solve_display.
Qed.

(** X8: the display is switched exactly at the transitions of the
    fallback flag: a callback shows the local video if and only if it
    turns [fallbackMode] from false to true, and shows the canvas if and
    only if it turns it from true to false. *)
Theorem X8_display_follows_fallback_flag :
  forall cfg ev s,
    let r := step cfg ev s in
    (In ShowLocalVideo (snd r)
     <-> fallbackMode s = false /\ fallbackMode (fst r) = true)
    /\ (In ShowCanvas (snd r)
        <-> fallbackMode s = true /\ fallbackMode (fst r) = false).
Proof. exact display_follows_fallback_flag. Qed.

(** X9: the display only falls back from a callback of the failsafe
    timer that runs more than 10 s after the last rendered frame; no
    other event ever turns [fallbackMode] on. *)
Theorem X9_fallback_only_from_late_timer :
  forall cfg ev s,
    fallbackMode s = false ->
    fallbackMode (fst (step cfg ev s)) = true ->
    exists now d,
      ev = FailsafeFires now
      /\ processingFailsafeTimer s = Pending d
      /\ (d <= now)%Z
      /\ (10000 < now - lastProcessedFrameTime s)%Z.
Proof.
  intros cfg ev s Hf Hon.
  destruct (display_follows_fallback_flag cfg ev s) as [Hshow _].
  cbv zeta in Hshow.
  assert (Hin : In ShowLocalVideo (snd (step cfg ev s)))
    by (apply Hshow; split; assumption).
  clear Hshow.
  destruct ev; cbn [step] in *;
    try (exfalso; revert Hon; cbn; congruence).
  - exfalso. revert Hon. unfold startFrameCapture.
    destruct (isStreaming s); cbn; congruence.
  - exfalso. revert Hin. destruct (frameInterval s); [|cbn; tauto].
    unfold captureTick, quiet.
    repeat match goal with
           | |- context [if ?b then _ else _] => destruct b
           end; cbn; intuition discriminate.
  - exfalso. revert Hon. unfold frameLoaded. destruct (truthy _); cbn;
      congruence.
  - exfalso. revert Hon. unfold stallWarningFires, quiet.
    destruct (processingTimeoutWarning s);
      try destruct (deadline <=? now)%Z; cbn; congruence.
  - unfold failsafeFires, quiet in Hon.
    destruct (processingFailsafeTimer s) as [|d|] eqn:Et;
      try (cbn in Hon; congruence).
    destruct (d <=? now)%Z eqn:Ed; [|cbn in Hon; congruence].
    cbn in Hon.
    destruct (10000 <? now - lastProcessedFrameTime s)%Z eqn:El;
      [|cbn in Hon; congruence].
    exists now, d. split; [reflexivity|]. split; [reflexivity|].
    split; [apply Z.leb_le; assumption | apply Z.ltb_lt; assumption].
  - exfalso. revert Hin. unfold processedFrame.
    destruct (invalidFrame msg); [cbn; intuition discriminate|].
    destruct d; try (cbn; intuition discriminate).
    + pose proof (beforeDraw_effects now s) as He.
      unfold andThen. destruct (beforeDraw now s) as [s1 e1].
      cbn [fst snd] in *. subst e1. rewrite Hf. cbn. intuition discriminate.
    + pose proof (beforeDraw_effects now s) as He.
      unfold andThen, quiet. destruct (beforeDraw now s) as [s1 e1].
      cbn [fst snd] in *. subst e1. rewrite Hf. cbn. tauto.
  - exfalso. revert Hon. unfold onVisibilityChange, startFrameCapture, quiet.
    destruct hidden; [cbn; congruence|].
    destruct (hasStream && negb (isStreaming s)); [|cbn; congruence].
    destruct (isStreaming s); cbn; congruence.
  - exfalso. revert Hin. unfold restartFeed, andThen, disableFallbackMode, quiet.
    rewrite Hf. cbn.
    destruct (truthy (processingFailsafeTimer s)); cbn;
      destruct (truthy (processingTimeoutWarning s)); cbn; tauto.
Qed.

Lemma X9_fallback_only_from_late_timer_witness :
  let s := run defaultSettings [CameraReady 1000%Z] initialState in
  fallbackMode s = false
  /\ fallbackMode (fst (step defaultSettings (FailsafeFires 11000) s)) = true
  /\ exists now d,
       FailsafeFires 11000 = FailsafeFires now
       /\ processingFailsafeTimer s = Pending d
       /\ (d <= now)%Z
       /\ (10000 < now - lastProcessedFrameTime s)%Z.
Proof.
  cbv zeta. split; [reflexivity|]. split; [reflexivity|].
  apply (X9_fallback_only_from_late_timer defaultSettings
           (FailsafeFires 11000)
           (run defaultSettings [CameraReady 1000%Z] initialState));
    reflexivity.
Defined.

(** ** The stall warning *)

Lemma step_keeps_armed_warning cfg ev s :
  clearsWarning ev = false ->
  truthy (processingTimeoutWarning s) = true ->
  processingTimeoutWarning (fst (step cfg ev s)) = processingTimeoutWarning s
  \/ processingTimeoutWarning (fst (step cfg ev s)) = Stale.
Proof.
  intros Hc Ht. destruct ev; try discriminate; cbn [step].
  - left. unfold startFrameCapture. destruct (isStreaming s); reflexivity.
  - left. destruct (frameInterval s); [|reflexivity].
    unfold captureTick, quiet.
    repeat match goal with
           | |- context [if ?b then _ else _] => destruct b
           end; reflexivity.
  - left. unfold frameLoaded. cbn. rewrite Ht. reflexivity.
  - unfold stallWarningFires, quiet.
    destruct (processingTimeoutWarning s) as [|dl|] eqn:E;
      [left; cbn; auto | | left; cbn; auto].
    destruct (dl <=? now)%Z; [right; reflexivity | left; cbn; auto].
  - left. unfold failsafeFires, enableFallbackMode, quiet.
    destruct (processingFailsafeTimer s) as [|dl|]; try reflexivity.
    destruct (dl <=? now)%Z; [|reflexivity]. cbn.
    destruct (10000 <? now - lastProcessedFrameTime s)%Z; [|reflexivity].
    destruct (fallbackMode s); reflexivity.
  - left. reflexivity.
  - left. reflexivity.
  - left. reflexivity.
  - left. reflexivity.
  - left. unfold onVisibilityChange, startFrameCapture, quiet.
    destruct hidden; [reflexivity|].
    destruct (hasStream && negb (isStreaming s)); [|reflexivity].
    destruct (isStreaming s); reflexivity.
  - left. reflexivity.
Qed.

(** X10: the stall warning is armed by the first send only.  While the
    variable holds a timer, no send, tick, timer callback, stop, start,
    connect or disconnect arms it again or moves its deadline: the
    variable keeps its value or, once the timer has fired, stays spent
    until a result is rendered or the feed is restarted. *)
Theorem X10_stall_warning_not_rearmed :
  forall cfg evs s,
    truthy (processingTimeoutWarning s) = true ->
    let s' := run cfg (filter (fun ev => negb (clearsWarning ev)) evs) s in
    processingTimeoutWarning s' = processingTimeoutWarning s
    \/ processingTimeoutWarning s' = Stale.
Proof.
  intros cfg evs s Ht. cbv zeta.
  set (w0 := processingTimeoutWarning s).
  assert (Hgen : forall s1,
             processingTimeoutWarning s1 = w0
             \/ processingTimeoutWarning s1 = Stale ->
             let s' := run cfg
                         (filter (fun ev => negb (clearsWarning ev)) evs) s1 in
             processingTimeoutWarning s' = w0
             \/ processingTimeoutWarning s' = Stale).
  { induction evs as [|ev evs IH]; intros s1 H1; [exact H1|].
    cbn [filter]. destruct (clearsWarning ev) eqn:Ec; cbn [negb].
    - apply IH. exact H1.
    - cbn [run]. apply IH.
      assert (Ht1 : truthy (processingTimeoutWarning s1) = true)
        by (destruct H1 as [H1 | H1]; rewrite H1; [exact Ht | reflexivity]).
      destruct (step_keeps_armed_warning cfg ev s1 Ec Ht1) as [H | H].
      + rewrite H. exact H1.
      + right. exact H. }
  apply Hgen. left. reflexivity.
Qed.

Lemma X10_stall_warning_not_rearmed_witness :
  let s := run defaultSettings
             [CameraReady 1000; FrameLoaded (8 # 10) 1100]%Z initialState in
  processingTimeoutWarning s = Pending 6100
  /\ processingTimeoutWarning
       (run defaultSettings
          [FrameLoaded (8 # 10) 1300; StallWarningFires 6100;
           FrameLoaded (8 # 10) 7000]%Z s) = Stale.
Proof.
  cbv zeta. split; [reflexivity|].
  destruct (X10_stall_warning_not_rearmed defaultSettings
              [FrameLoaded (8 # 10) 1300; StallWarningFires 6100;
               FrameLoaded (8 # 10) 7000]%Z
              (run defaultSettings
                 [CameraReady 1000; FrameLoaded (8 # 10) 1100]%Z initialState)
              eq_refl) as [H | H].
  - vm_compute in H. discriminate H.
  - exact H.
Defined.

(** ** Counters *)

Lemma step_dropCount_monotone cfg ev s :
  resetsCounters ev = false ->
  (frameDropCount s <= frameDropCount (fst (step cfg ev s)))%Z.
Proof.
  intro Hr. destruct ev; try discriminate; cbn [step].
  - destruct (frameInterval s); [|cbn; lia].
    unfold captureTick, quiet.
    repeat match goal with
           | |- context [if ?b then _ else _] => destruct b
           end; cbn; lia.
  - unfold frameLoaded. cbn. destruct (truthy _); cbn; lia.
  - unfold stallWarningFires, quiet.
    destruct (processingTimeoutWarning s); try (cbn; lia).
    destruct (deadline <=? now)%Z; cbn; lia.
  - unfold failsafeFires, enableFallbackMode, quiet.
    destruct (processingFailsafeTimer s); try (cbn; lia).
    destruct (deadline <=? now)%Z; [|cbn; lia]. cbn.
    destruct (10000 <? now - lastProcessedFrameTime s)%Z; [|cbn; lia].
    destruct (fallbackMode s); cbn; lia.
  - unfold processedFrame.
    destruct (invalidFrame msg); [cbn; lia|].
    unfold andThen, beforeDraw, andThen, disableFallbackMode, quiet,
      afterDraw, finishPending, trackLatency.
    destruct d; cbn; try lia;
      destruct (fallbackMode s); cbn;
      repeat match goal with
             | |- context [truthy ?t] => destruct (truthy t); cbn
             end; try lia;
      destruct (timestamp msg) as [ts|]; cbn; try lia;
      destruct (ts =? 0)%Z; cbn; try lia;
      match goal with |- context [if ?b then _ else _] => destruct b end;
      cbn; lia.
  - cbn. lia.
  - cbn. lia.
  - cbn. lia.
  - cbn. lia.
  - unfold restartFeed, andThen, disableFallbackMode, quiet.
    destruct (fallbackMode s); cbn;
      repeat match goal with
             | |- context [truthy ?t] => destruct (truthy t); cbn
             end; lia.
Qed.

(** X11: the drop counter never decreases except where a session start
    or a (re)connect sets it back to 0: across any sequence of ticks,
    sends, results, timer callbacks, stops, disconnects and restarts it
    only grows. *)
Theorem X11_drop_counter_monotone :
  forall cfg evs s,
    (frameDropCount s
     <= frameDropCount
          (run cfg (filter (fun ev => negb (resetsCounters ev)) evs) s))%Z.
Proof.
  intros cfg evs. induction evs as [|ev evs IH]; intro s; [cbn; lia|].
  cbn [filter]. destruct (resetsCounters ev) eqn:Er; cbn [negb].
  - apply IH.
  - cbn [run]. eapply Z.le_trans; [|apply IH].
    apply step_dropCount_monotone. assumption.
Qed.

(** ** Restarting the feed *)

Lemma timer_callbacks_dead cfg ev s :
  timerCallback ev = true ->
  anyTimerScheduled s = false ->
  step cfg ev s = (s, []).
Proof.
  unfold anyTimerScheduled. intros Hc Ht.
  apply orb_false_iff in Ht. destruct Ht as [Ht Hf].
  apply orb_false_iff in Ht. destruct Ht as [Hi Hw].
  destruct ev; try discriminate; cbn [step].
  - rewrite Hi. reflexivity.
  - unfold stallWarningFires.
    destruct (processingTimeoutWarning s); try reflexivity. discriminate.
  - unfold failsafeFires.
    destruct (processingFailsafeTimer s); try reflexivity. discriminate.
Qed.

(** X12: the restart button cancels all three timers.  Whatever the
    state, after its handler the capture interval, the stall warning
    and the failsafe timer are all unscheduled, the display is Normal,
    the pending count and frame count are 0 and the last success time
    is the time of the click; a run that consists of timer callbacks
    alone (capture ticks, stall-warning and failsafe callbacks) then
    leaves that state as it is. *)
Theorem X12_restart_cancels_every_timer :
  forall cfg now s,
    let s' := fst (step cfg (RestartFeed now) s) in
    anyTimerScheduled s' = false
    /\ processingFailsafeTimer s' = NoTimer
    /\ processingTimeoutWarning s' = NoTimer
    /\ isStreaming s' = false
    /\ failsafeState s' = Normal
    /\ pendingFrames s' = 0%Z
    /\ frameCount s' = 0%Z
    /\ lastProcessedFrameTime s' = now
    /\ forall evs, run cfg (filter timerCallback evs) s' = s'.
Proof.
  intros cfg now s s'.
  assert (H : anyTimerScheduled s' = false
              /\ processingFailsafeTimer s' = NoTimer
              /\ processingTimeoutWarning s' = NoTimer
              /\ isStreaming s' = false
              /\ failsafeState s' = Normal
              /\ pendingFrames s' = 0%Z
              /\ frameCount s' = 0%Z
              /\ lastProcessedFrameTime s' = now).
  { subst s'. cbn [step].
    unfold restartFeed, andThen, disableFallbackMode, quiet, failsafeState,
      anyTimerScheduled.
    destruct (fallbackMode s) eqn:Ef; cbn;
      destruct (processingFailsafeTimer s) eqn:E1; cbn;
      destruct (processingTimeoutWarning s) eqn:E2; cbn;
      rewrite ?Ef, ?E1, ?E2; cbn;
      repeat (split; [reflexivity|]); reflexivity. }
  destruct H as (H0 & H1 & H2 & H3 & H4 & H5 & H6 & H7).
  repeat (split; [assumption|]).
  intro evs. induction evs as [|ev evs IH]; [reflexivity|].
  cbn [filter]. destruct (timerCallback ev) eqn:Ec; [|exact IH].
  cbn [run]. rewrite (timer_callbacks_dead cfg ev s' Ec H0). exact IH.
Qed.

(** ** A send and its result *)

Lemma processedFrame_ok_window cfg msg ts now s :
  invalidFrame msg = false ->
  timestamp msg = Some ts ->
  ts <> 0%Z ->
  processingLatencies (fst (processedFrame cfg msg DrawOk now s))
  = pushLatency (now - ts) (processingLatencies s).
Proof.
  intros Hv Hts Hnz. unfold processedFrame. rewrite Hv.
  unfold andThen, quiet. destruct (beforeDraw now s) as [s1 e1] eqn:E.
  cbn [fst].
  assert (Hw : processingLatencies s1 = processingLatencies s)
    by (change s1 with (fst (s1, e1)); rewrite <- E; apply beforeDraw_window).
  unfold afterDraw, finishPending, trackLatency. rewrite Hts.
  apply Z.eqb_neq in Hnz. rewrite Hnz.
  destruct (truthy (processingTimeoutWarning
                      (set_lastProcessedFrameTime now s1))); cbn;
    rewrite ?Hw;
    match goal with |- context [if ?b then _ else _] => destruct b end;
    cbn; rewrite ?Hw; reflexivity.
Qed.

Lemma last_tl (xs : list Z) (d : Z) :
  (2 <= List.length xs)%nat -> last (tl xs) d = last xs d.
Proof.
  destruct xs as [|x [|y ys]]; cbn [List.length tl]; intro H;
    [lia | lia | reflexivity].
Qed.

Lemma pushLatency_last x xs d : last (pushLatency x xs) d = x.
Proof.
  unfold pushLatency.
  destruct (10 <? Z.of_nat (List.length (xs ++ [x])))%Z eqn:E.
  - apply Z.ltb_lt in E. rewrite last_tl by lia. apply last_last.
  - apply last_last.
Qed.

Lemma trackLatency_warning cfg msg now s :
  processingTimeoutWarning (trackLatency cfg msg now s)
  = processingTimeoutWarning s.
Proof.
  unfold trackLatency.
  destruct (timestamp msg) as [ts|]; [|reflexivity].
  destruct (ts =? 0)%Z; [reflexivity|]. cbv zeta.
  match goal with |- context [if ?b then _ else _] => destruct b end;
    reflexivity.
Qed.

Lemma afterDraw_warning cfg msg now s :
  processingTimeoutWarning (afterDraw cfg msg now s) = NoTimer.
Proof.
  unfold afterDraw, finishPending. cbn. rewrite trackLatency_warning.
  destruct (processingTimeoutWarning s) eqn:Ew; cbn; try reflexivity.
  exact Ew.
Qed.

(** X13: a send and the result that echoes its timestamp undo each other
    in the bookkeeping: the send emits one frame stamped with the send
    time and raises [pendingFrames] by 1; when the result is rendered
    the count is back where it was, the newest entry of the latency
    window is the receive time minus the send time, the in-flight flag
    and the stall warning are cleared, and the receive time is recorded
    as the last success. *)
Theorem X13_send_result_round_trip :
  forall cfg quality sentAt msg receivedAt s,
    (0 <= pendingFrames s)%Z ->
    sentAt <> 0%Z ->
    invalidFrame msg = false ->
    timestamp msg = Some sentAt ->
    let sent := step cfg (FrameLoaded quality sentAt) s in
    let back := step cfg (ProcessedFrame msg DrawOk receivedAt) (fst sent) in
    snd sent = [EmitProcessFrame sentAt (frameCount s) quality]
    /\ pendingFrames (fst sent) = (pendingFrames s + 1)%Z
    /\ isFrameBeingProcessed (fst sent) = true
    /\ pendingFrames (fst back) = pendingFrames s
    /\ isFrameBeingProcessed (fst back) = false
    /\ last (processingLatencies (fst back)) 0%Z = (receivedAt - sentAt)%Z
    /\ processingTimeoutWarning (fst back) = NoTimer
    /\ lastProcessedFrameTime (fst back) = receivedAt.
Proof.
  intros cfg quality sentAt msg receivedAt s Hp Hnz Hv Hts sent back.
  assert (Hs1 : snd sent = [EmitProcessFrame sentAt (frameCount s) quality])
    by (subst sent; cbn [step]; unfold frameLoaded; cbn;
        try destruct (truthy (processingTimeoutWarning s)); reflexivity).
  assert (Hs2 : pendingFrames (fst sent) = (pendingFrames s + 1)%Z)
    by (subst sent; cbn [step]; unfold frameLoaded; cbn;
        try destruct (truthy (processingTimeoutWarning s)); reflexivity).
  assert (Hs3 : isFrameBeingProcessed (fst sent) = true)
    by (subst sent; cbn [step]; unfold frameLoaded; cbn;
        try destruct (truthy (processingTimeoutWarning s)); reflexivity).
  split; [exact Hs1|]. split; [exact Hs2|]. split; [exact Hs3|].
  subst back. cbn [step].
  split.
  { rewrite processedFrame_valid_pending by assumption. rewrite Hs2. lia. }
  split; [apply processedFrame_valid_flag; assumption|].
  split.
  { rewrite (processedFrame_ok_window cfg msg sentAt receivedAt (fst sent)
               Hv Hts Hnz).
    apply pushLatency_last. }
  unfold processedFrame. rewrite Hv. unfold andThen, quiet.
  destruct (beforeDraw receivedAt (fst sent)) as [s1 e1]. cbn [fst].
  split; [apply afterDraw_warning|].
  destruct (afterDraw_failsafe cfg msg receivedAt s1) as (_ & _ & Hl).
  exact Hl.
Qed.

Lemma X13_send_result_round_trip_witness :
  let s := run defaultSettings [CameraReady 1000%Z] initialState in
  let sent := step defaultSettings (FrameLoaded (8 # 10) 1100) s in
  let back := step defaultSettings (resultAfter 400 1500) (fst sent) in
  pendingFrames s = 0%Z
  /\ pendingFrames (fst sent) = 1%Z
  /\ pendingFrames (fst back) = 0%Z
  /\ processingLatencies (fst back) = [400%Z].
Proof.
  pose proof (X13_send_result_round_trip defaultSettings (8 # 10) 1100%Z
                (frameEchoing 1100) 1500%Z
                (run defaultSettings [CameraReady 1000%Z] initialState)) as H.
  cbv zeta in H.
  destruct H as (_ & H1 & _ & H2 & _); try reflexivity;
    try discriminate.
  cbv zeta. split; [reflexivity|]. split; [exact H1|].
  split; [exact H2 | vm_compute; reflexivity].
Defined.

(** A rendered result whose timestamp is missing or 0. *)
Lemma result_without_timestamp :
  forall cfg msg now s,
    invalidFrame msg = false ->
    timestamp msg = None \/ timestamp msg = Some 0%Z ->
    let s' := fst (step cfg (ProcessedFrame msg DrawOk now) s) in
    processingLatencies s' = processingLatencies s
    /\ currentAdaptiveFrameRate s' = currentAdaptiveFrameRate s
    /\ pendingFrames s' = Z.max 0 (pendingFrames s - 1)
    /\ isFrameBeingProcessed s' = false
    /\ lastProcessedFrameTime s' = now
    /\ processingFailsafeTimer s' = Pending (now + 10000).
Proof.
  intros cfg msg now s Hv Hts s'. subst s'. cbn [step].
  split; [|split].
  - unfold processedFrame. rewrite Hv. unfold andThen, quiet.
    destruct (beforeDraw now s) as [s1 e1] eqn:E. cbn [fst].
    assert (Hw : processingLatencies s1 = processingLatencies s)
      by (change s1 with (fst (s1, e1)); rewrite <- E;
          apply beforeDraw_window).
    unfold afterDraw, finishPending, trackLatency.
    destruct Hts as [Hts | Hts]; rewrite Hts; cbn;
      destruct (truthy (processingTimeoutWarning s1)); cbn; exact Hw.
  - unfold processedFrame. rewrite Hv. unfold andThen, quiet.
    destruct (beforeDraw now s) as [s1 e1] eqn:E. cbn [fst].
    assert (Hr : currentAdaptiveFrameRate s1 = currentAdaptiveFrameRate s)
      by (change s1 with (fst (s1, e1)); rewrite <- E; apply beforeDraw_rate).
    unfold afterDraw, finishPending, trackLatency.
    destruct Hts as [Hts | Hts]; rewrite Hts; cbn;
      destruct (truthy (processingTimeoutWarning s1)); cbn; exact Hr.
  - split; [apply processedFrame_valid_pending; assumption|].
    split; [apply processedFrame_valid_flag; assumption|].
    destruct (rendered_result_restores_normal cfg msg now s Hv)
      as (_ & Ht & Hl & _).
    cbn [step] in Ht, Hl. split; assumption.
Qed.

(** X14: a rendered result without an echoed timestamp, or with the
    timestamp 0, is not a latency sample: the window and the rate are
    left alone, while the pending count, the in-flight flag, the last
    success time and the failsafe timer are updated as for any rendered
    result. *)
Theorem X14_result_without_timestamp :
  forall cfg msg now s,
    invalidFrame msg = false ->
    timestamp msg = None \/ timestamp msg = Some 0%Z ->
    let s' := fst (step cfg (ProcessedFrame msg DrawOk now) s) in
    processingLatencies s' = processingLatencies s
    /\ currentAdaptiveFrameRate s' = currentAdaptiveFrameRate s
    /\ pendingFrames s' = Z.max 0 (pendingFrames s - 1)
    /\ isFrameBeingProcessed s' = false
    /\ lastProcessedFrameTime s' = now
    /\ processingFailsafeTimer s' = Pending (now + 10000).
Proof. exact result_without_timestamp. Qed.

Lemma X14_result_without_timestamp_witness :
  let s := run defaultSettings (slowStart ++ slowResults) initialState in
  let msg := {| frame := Some [Byte.x52]; timestamp := None |} in
  let s' := fst (step defaultSettings (ProcessedFrame msg DrawOk 30000) s) in
  List.length (processingLatencies s) = 6%nat
  /\ processingLatencies s' = processingLatencies s
  /\ currentAdaptiveFrameRate s' = currentAdaptiveFrameRate s.
Proof.
  cbv zeta. split; [vm_compute; reflexivity|].
  destruct (X14_result_without_timestamp defaultSettings
              {| frame := Some [Byte.x52]; timestamp := None |} 30000%Z
              (run defaultSettings (slowStart ++ slowResults) initialState))
    as (Hw & Hr & _).
  - reflexivity.
  - left. reflexivity.
  - split; assumption.
Defined.

(** ** The rate over a session *)

Lemma processedFrame_rate_cases cfg msg d now s :
  currentAdaptiveFrameRate (fst (processedFrame cfg msg d now s))
  = currentAdaptiveFrameRate s
  \/ exists window,
       adaptiveFrameRate cfg = true
       /\ currentAdaptiveFrameRate (fst (processedFrame cfg msg d now s))
          = recoverTowardsBase cfg (average window) (pendingFrames s) window
              (adjustByLatency cfg (average window)
                 (currentAdaptiveFrameRate s)).
Proof.
  destruct (invalidFrame msg) eqn:Hv.
  { left. rewrite processedFrame_invalid by assumption. reflexivity. }
  destruct d.
  - left. unfold processedFrame. rewrite Hv. reflexivity.
  - left. unfold processedFrame. rewrite Hv. reflexivity.
  - left. unfold processedFrame. rewrite Hv.
    unfold andThen. destruct (beforeDraw now s) as [s1 e1] eqn:E. cbn.
    change s1 with (fst (s1, e1)). rewrite <- E. apply beforeDraw_rate.
  - destruct (timestamp msg) as [ts|] eqn:Hts.
    + destruct (Z.eq_dec ts 0) as [Hz | Hnz].
      * left. subst ts.
        destruct (result_without_timestamp cfg msg now s Hv
                    (or_intror Hts)) as (_ & Hr & _).
        exact Hr.
      * rewrite (processedFrame_ok_rate cfg msg ts now s Hv Hts Hnz).
        cbv zeta.
        destruct (adaptiveFrameRate cfg) eqn:Ha; [|left; reflexivity].
        destruct (3 <=? _)%Z; [|left; reflexivity].
        right. eexists. split; reflexivity.
    + left.
      destruct (result_without_timestamp cfg msg now s Hv
                  (or_introl Hts)) as (_ & Hr & _).
      exact Hr.
Qed.

Lemma step_rate_fixed cfg ev s :
  adaptiveFrameRate cfg = false ->
  currentAdaptiveFrameRate s = frameRate cfg ->
  currentAdaptiveFrameRate (fst (step cfg ev s)) = frameRate cfg.
Proof.
  intros Ha Hr. destruct ev; cbn [step].
  - unfold startFrameCapture. destruct (isStreaming s); cbn; auto.
  - destruct (frameInterval s); [|assumption].
    unfold captureTick, quiet. rewrite Ha.
    repeat match goal with
           | |- context [if ?b then _ else _] => destruct b
           end; assumption.
  - unfold frameLoaded. cbn. destruct (truthy _); assumption.
  - unfold stallWarningFires, quiet.
    destruct (processingTimeoutWarning s) as [|dl|]; try assumption.
    destruct (dl <=? now)%Z; assumption.
  - unfold failsafeFires, enableFallbackMode, quiet.
    destruct (processingFailsafeTimer s) as [|dl|]; try assumption.
    destruct (dl <=? now)%Z; [|assumption]. cbn.
    destruct (10000 <? now - lastProcessedFrameTime s)%Z; [|assumption].
    destruct (fallbackMode s); assumption.
  - destruct (processedFrame_rate_cases cfg msg d now s)
      as [H | (w & Hadapt & _)]; [rewrite H; assumption | congruence].
  - assumption.
  - assumption.
  - assumption.
  - assumption.
  - unfold onVisibilityChange, startFrameCapture, quiet.
    destruct hidden; [assumption|].
    destruct (hasStream && negb (isStreaming s)); [|assumption].
    destruct (isStreaming s); cbn; auto.
  - assumption.
  - unfold restartFeed, andThen, disableFallbackMode, quiet.
    destruct (fallbackMode s); cbn;
      repeat match goal with
             | |- context [truthy ?t] => destruct (truthy t); cbn
             end; assumption.
Qed.

(** X15: with adaptive mode switched off, the stored rate is the
    configured rate from the session start on, whatever happens: no
    latency sample and no drop ever changes it, and it is the rate the
    pacing check reads. *)
Theorem X15_fixed_rate_without_adaptive_mode :
  forall cfg s0 now evs,
    adaptiveFrameRate cfg = false ->
    isStreaming s0 = false ->
    let s := run cfg (CameraReady now :: evs) s0 in
    currentAdaptiveFrameRate s = frameRate cfg
    /\ getEffectiveFrameRate cfg s = frameRate cfg.
Proof.
  intros cfg s0 now evs Ha Hoff s.
  split; [|unfold getEffectiveFrameRate; rewrite Ha; reflexivity].
  subst s. cbn [run step quiet fst].
  assert (H : forall s1,
             currentAdaptiveFrameRate s1 = frameRate cfg ->
             currentAdaptiveFrameRate (run cfg evs s1) = frameRate cfg).
  { induction evs as [|ev evs IH]; intros s1 H1; [assumption|].
    cbn [run]. apply IH. apply step_rate_fixed; assumption. }
  apply H. unfold startFrameCapture. rewrite Hoff. reflexivity.
Qed.

Lemma X15_fixed_rate_without_adaptive_mode_witness :
  currentAdaptiveFrameRate
    (run fixedRateSettings
       (CameraReady 1000 :: tl slowStart ++ slowResults ++ tl fourUnanswered
          ++ [Tick true 9000])
       initialState) = 5.
Proof.
  apply (X15_fixed_rate_without_adaptive_mode fixedRateSettings
           initialState 1000%Z); reflexivity.
Defined.

Lemma adjustByLatency_step_bounds cfg avg rate :
  rateInRange cfg rate ->
  rate - 1 <= adjustByLatency cfg avg rate
  /\ adjustByLatency cfg avg rate <= rate + (1 # 2).
Proof.
  intros [Hlo Hhi]. unfold adjustByLatency.
  destruct (Qltb 2000 avg); [|destruct (Qltb 1000 avg);
    [|destruct (Qltb avg 300); [|destruct (Qltb avg 500)]]].
  - split; [apply Q.le_max_r | apply Q.max_lub; lra].
  - split; [eapply Qle_trans; [|apply Q.le_max_r]; lra
           | apply Q.max_lub; lra].
  - split; [apply Q.min_glb; lra | apply Q.le_min_r].
  - split; [apply Q.min_glb; lra
           | eapply Qle_trans; [apply Q.le_min_r|]; lra].
  - split; lra.
Qed.

Lemma recoverTowardsBase_step_bounds cfg avg pending window rate :
  rate <= recoverTowardsBase cfg avg pending window rate
  /\ recoverTowardsBase cfg avg pending window rate <= rate + (3 # 10).
Proof.
  destruct (recoverTowardsBase_cases cfg avg pending window rate)
    as [H | (_ & _ & _ & _ & Hlt & H)]; rewrite H.
  - split; lra.
  - split; [apply Q.min_glb; lra | apply Q.le_min_r].
Qed.

(** X16: the rate moves by bounded steps.  With the rate between min
    and max, one [processed_frame] message lowers it by at most 1.0 and
    raises it by at most 0.8 (0.5 for the latency step plus 0.3 for the
    recovery), and one capture tick lowers it by at most 0.5 and never
    raises it. *)
Theorem X16_rate_moves_by_bounded_steps :
  forall cfg s,
    rateInRange cfg (currentAdaptiveFrameRate s) ->
    (forall msg d now,
        let rate' := currentAdaptiveFrameRate
                       (fst (step cfg (ProcessedFrame msg d now) s)) in
        currentAdaptiveFrameRate s - 1 <= rate'
        /\ rate' <= currentAdaptiveFrameRate s + (8 # 10))
    /\ (forall ready now,
          let rate' := currentAdaptiveFrameRate
                         (fst (step cfg (Tick ready now) s)) in
          currentAdaptiveFrameRate s - (1 # 2) <= rate'
          /\ rate' <= currentAdaptiveFrameRate s).
Proof.
  intros cfg s Hr. split.
  - intros msg d now rate'. subst rate'. cbn [step].
    destruct (processedFrame_rate_cases cfg msg d now s)
      as [H | (w & _ & H)]; rewrite H.
    + split; lra.
    + destruct (adjustByLatency_step_bounds cfg (average w) _ Hr)
        as [Ha1 Ha2].
      destruct (recoverTowardsBase_step_bounds cfg (average w)
                  (pendingFrames s) w
                  (adjustByLatency cfg (average w)
                     (currentAdaptiveFrameRate s))) as [Hb1 Hb2].
      split; lra.
  - intros ready now rate'. subst rate'. cbn [step].
    destruct Hr as [Hlo Hhi].
    destruct (frameInterval s); [|cbn; split; lra].
    unfold captureTick, quiet.
    destruct (negb ready); [cbn; split; lra|].
    destruct (tooSoon _ _); [cbn; split; lra|].
    destruct (3 <? pendingFrames s)%Z.
    + destruct (adaptiveFrameRate cfg); cbn; [|split; lra].
      split; [apply Q.le_max_r | apply Q.max_lub; lra].
    + destruct (isFrameBeingProcessed s && (1 <? pendingFrames s)%Z);
        cbn; split; lra.
Qed.

Lemma X16_rate_moves_by_bounded_steps_witness :
  let s := run defaultSettings slowStart initialState in
  currentAdaptiveFrameRate s - 1
  <= currentAdaptiveFrameRate
       (fst (step defaultSettings (resultAfter 2500 6000) s)).
Proof.
  destruct (X16_rate_moves_by_bounded_steps defaultSettings
              (run defaultSettings slowStart initialState)) as [H _].
  - split; vm_compute; discriminate.
  - destruct (H (frameEchoing 3500) DrawOk 6000%Z) as [Hlo _]. exact Hlo.
Defined.

(** ** Stopping and starting the capture *)

(** X17: [startFrameCapture] does nothing while the capture is running,
    so a second start keeps the pending count, the window, the rate and
    the drop counter; after a stop, a start gives a clean throttling
    state (nothing pending, empty window, no drops, the configured rate,
    pacing clock at 0) with the interval live, and leaves the in-flight
    flag, the frame count, the fallback flag and the failsafe timer as
    they were.  Stopping twice is the same as stopping once. *)
Theorem X17_stop_and_start :
  forall cfg s,
    (isStreaming s = true -> startFrameCapture cfg s = s)
    /\ stopFrameCapture (stopFrameCapture s) = stopFrameCapture s
    /\ (let s' := startFrameCapture cfg (stopFrameCapture s) in
        isStreaming s' = true /\ frameInterval s' = true
        /\ pendingFrames s' = 0%Z
        /\ processingLatencies s' = []
        /\ frameDropCount s' = 0%Z
        /\ currentAdaptiveFrameRate s' = frameRate cfg
        /\ lastFrameSentTime s' = 0%Z
        /\ isFrameBeingProcessed s' = isFrameBeingProcessed s
        /\ frameCount s' = frameCount s
        /\ fallbackMode s' = fallbackMode s
        /\ processingFailsafeTimer s' = processingFailsafeTimer s
        /\ processingTimeoutWarning s' = processingTimeoutWarning s).
Proof.
  intros cfg s. split; [|split].
  - intro H. unfold startFrameCapture. rewrite H. reflexivity.
  - reflexivity.
  - cbv zeta. unfold startFrameCapture. cbn.
    repeat (split; [reflexivity|]). reflexivity.
Qed.

Lemma X17_stop_and_start_witness :
  let s := run defaultSettings fourUnanswered initialState in
  isStreaming s = true /\ startFrameCapture defaultSettings s = s.
Proof.
  cbv zeta. split; [reflexivity|].
  apply (proj1 (X17_stop_and_start defaultSettings
                  (run defaultSettings fourUnanswered initialState))).
  reflexivity.
Defined.

(** * The recordings page *)

Lemma Qfloor_unique (x : Q) (k : Z) :
  inject_Z k <= x -> x < inject_Z (k + 1) -> Qfloor x = k.
Proof.
  intros Hlo Hhi.
  pose proof (Qfloor_le x) as H1. pose proof (Qlt_floor x) as H2.
  assert (Ha : inject_Z (Qfloor x) < inject_Z (k + 1))
    by (eapply Qle_lt_trans; eassumption).
  assert (Hb : inject_Z k < inject_Z (Qfloor x + 1))
    by (eapply Qle_lt_trans; eassumption).
  rewrite <- Zlt_Qlt in Ha, Hb. lia.
Qed.

Lemma toFixed0_whole (x : Q) (k : Z) :
  (0 <= k)%Z -> x == inject_Z k ->
  Recordings.toFixed0 x = Recordings.showInteger k.
Proof.
  intros Hk Hx. unfold Recordings.toFixed0.
  assert (E : Qltb x 0 = false).
  { apply Qltb_false. rewrite Hx. change 0 with (inject_Z 0).
    rewrite <- Zle_Qle. assumption. }
  rewrite E. f_equal. apply Qfloor_unique.
  - rewrite Hx. lra.
  - rewrite Hx, inject_Z_plus. change (inject_Z 1) with 1. lra.
Qed.

Lemma truncate_nonneg (x : Q) :
  0 <= x -> Recordings.truncate x = Qfloor x.
Proof.
  intro H. unfold Recordings.truncate.
  apply Qltb_false in H. rewrite H. reflexivity.
Qed.


(** X18: for a whole number of seconds, [formatDuration] shows the
    duration exactly below one hour and drops the seconds from one hour
    on: under a minute it prints the seconds; under an hour it prints
    minutes m and seconds r with 60 m + r the duration and r below 60;
    otherwise it prints hours h and minutes m with m below 60 and
    3600 h + 60 m at most the duration and less than a minute short of
    it. *)
Theorem X18_formatDuration_whole_seconds :
  forall n : Z,
    (0 <= n)%Z ->
    ((n < 60)%Z ->
     Recordings.formatDuration (inject_Z n)
     = String.append (Recordings.showInteger n) "s")
    /\ ((60 <= n < 3600)%Z ->
        exists m r,
          Recordings.formatDuration (inject_Z n)
          = String.append (Recordings.showInteger m)
              (String.append "m "
                 (String.append (Recordings.showInteger r) "s"))
          /\ n = (60 * m + r)%Z /\ (0 <= r < 60)%Z /\ (1 <= m < 60)%Z)
    /\ ((3600 <= n)%Z ->
        exists h m,
          Recordings.formatDuration (inject_Z n)
          = String.append (Recordings.showInteger h)
              (String.append "h "
                 (String.append (Recordings.showInteger m) "m"))
          /\ (3600 * h + 60 * m <= n < 3600 * h + 60 * m + 60)%Z
          /\ (0 <= m < 60)%Z /\ (1 <= h)%Z).
Proof.
  intros n Hn.
  assert (Hsixty : forall k, Qltb (inject_Z n) (inject_Z k) = (n <? k)%Z).
  { intro k. destruct (n <? k)%Z eqn:E.
    - apply Qltb_true. rewrite <- Zlt_Qlt. apply Z.ltb_lt. assumption.
    - apply Qltb_false. rewrite <- Zle_Qle. apply Z.ltb_ge. assumption. }
  assert (Hpos : 0 <= inject_Z n)
    by (change 0 with (inject_Z 0); rewrite <- Zle_Qle; assumption).
  assert (Hdiv : forall k, (0 < k)%Z -> 0 <= inject_Z n / inject_Z k).
  { intros k Hk. apply Qle_shift_div_l.
    - change 0 with (inject_Z 0). rewrite <- Zlt_Qlt. assumption.
    - rewrite Qmult_0_l. assumption. }
  assert (Hrem : forall k, (0 < k)%Z ->
             Recordings.remainder (inject_Z n) (inject_Z k)
             == inject_Z (n mod k)).
  { intros k Hk. unfold Recordings.remainder.
    rewrite truncate_nonneg by (apply Hdiv; assumption).
    rewrite <- Zdiv_Qdiv, <- inject_Z_mult.
    unfold Qminus. rewrite <- inject_Z_opp, <- inject_Z_plus.
    rewrite Z.mod_eq by lia. f_equal. reflexivity. }
  split; [|split].
  - intro H. unfold Recordings.formatDuration.
    change 60 with (inject_Z 60). rewrite Hsixty.
    apply Z.ltb_lt in H. rewrite H.
    rewrite (toFixed0_whole (inject_Z n) n Hn (Qeq_refl _)). reflexivity.
  - intros [Hlo Hhi]. exists (n / 60)%Z, (n mod 60)%Z.
    split.
    + unfold Recordings.formatDuration.
      change 60 with (inject_Z 60). change 3600 with (inject_Z 3600).
      rewrite !Hsixty.
      assert (E1 : (n <? 60)%Z = false) by (apply Z.ltb_ge; lia).
      assert (E2 : (n <? 3600)%Z = true) by (apply Z.ltb_lt; lia).
      rewrite E1, E2. cbv zeta.
      rewrite <- Zdiv_Qdiv.
      rewrite (toFixed0_whole _ (n mod 60)%Z);
        [reflexivity | apply Z.mod_pos_bound; lia | apply Hrem; lia].
    + pose proof (Z.div_mod n 60 ltac:(lia)) as Hdm.
      pose proof (Z.mod_pos_bound n 60 ltac:(lia)) as Hb.
      split; [lia|]. split; [lia|].
      split; [apply Z.div_le_lower_bound; lia
             | apply Z.div_lt_upper_bound; lia].
  - intro H. exists (n / 3600)%Z, ((n mod 3600) / 60)%Z.
    split.
    + unfold Recordings.formatDuration.
      change 60 with (inject_Z 60). change 3600 with (inject_Z 3600).
      rewrite !Hsixty.
      assert (E1 : (n <? 60)%Z = false) by (apply Z.ltb_ge; lia).
      assert (E2 : (n <? 3600)%Z = false) by (apply Z.ltb_ge; lia).
      rewrite E1, E2. cbv zeta.
      rewrite <- Zdiv_Qdiv.
      rewrite (Qfloor_comp _ (inject_Z (n mod 3600) / inject_Z 60));
        [rewrite <- Zdiv_Qdiv; reflexivity|].
      rewrite (Hrem 3600%Z) by lia. reflexivity.
    + pose proof (Z.div_mod n 3600 ltac:(lia)) as Hdm.
      pose proof (Z.mod_pos_bound n 3600 ltac:(lia)) as Hb.
      pose proof (Z.div_mod (n mod 3600) 60 ltac:(lia)) as Hdm2.
      pose proof (Z.mod_pos_bound (n mod 3600) 60 ltac:(lia)) as Hb2.
      split; [lia|].
      split; [split; [apply Z.div_pos; lia
                     | apply Z.div_lt_upper_bound; lia]|].
      apply Z.div_le_lower_bound; lia.
Qed.

Lemma X18_formatDuration_whole_seconds_witness :
  Recordings.formatDuration 45 = "45s"%string
  /\ Recordings.formatDuration 125 = "2m 5s"%string
  /\ Recordings.formatDuration 3725 = "1h 2m"%string
  /\ exists m r,
       Recordings.formatDuration (inject_Z 125)
       = String.append (Recordings.showInteger m)
           (String.append "m "
              (String.append (Recordings.showInteger r) "s"))
       /\ 125%Z = (60 * m + r)%Z /\ (0 <= r < 60)%Z /\ (1 <= m < 60)%Z.
Proof.
  split; [vm_compute; reflexivity|].
  split; [vm_compute; reflexivity|].
  split; [vm_compute; reflexivity|].
  apply (proj1 (proj2 (X18_formatDuration_whole_seconds 125 ltac:(lia)))).
  lia.
Defined.



(** X20: the storage bar is never wider than 100 percent.  With a
    positive total and a used amount between 0 and the total, its width
    is used / total * 100; when the total is missing or 0, the divisor
    falls back to 1 and the percentage is the used amount times 100. *)
Theorem X20_storage_bar :
  forall data,
    Recordings.storageBarWidth data <= 100
    /\ (forall used total,
          Recordings.disk_used_gb data = Some used ->
          Recordings.disk_total_gb data = Some total ->
          0 <= used -> used <= total -> 0 < total ->
          Recordings.storageBarWidth data == used / total * 100
          /\ 0 <= Recordings.storageBarWidth data)
    /\ (Recordings.disk_total_gb data = None
        \/ Recordings.disk_total_gb data = Some 0 ->
        Recordings.usagePercent data
        == Recordings.orElse (Recordings.disk_used_gb data) 0 * 100).
Proof.
  intro data. split; [apply Q.le_min_l|]. split.
  - intros used total Hu Ht H0 Hle Hpos.
    assert (Hnz : ~ total == 0) by lra.
    assert (Hpct : Recordings.usagePercent data == used / total * 100).
    { unfold Recordings.usagePercent, Recordings.orElse. rewrite Hu, Ht.
      destruct (Qeq_bool total 0) eqn:Et;
        [apply Qeq_bool_eq in Et; contradiction|].
      destruct (Qeq_bool used 0) eqn:Eu; [|reflexivity].
      apply Qeq_bool_eq in Eu. rewrite Eu. field. exact Hnz. }
    assert (Hfrac : 0 <= used / total /\ used / total <= 1).
    { split.
      - apply Qle_shift_div_l; [assumption | lra].
      - apply Qle_shift_div_r; [assumption | lra]. }
    unfold Recordings.storageBarWidth. rewrite Hpct.
    destruct Hfrac as [Hf0 Hf1].
    rewrite Q.min_r by lra. split; [reflexivity | lra].
  - intros [Ht | Ht]; unfold Recordings.usagePercent;
      rewrite Ht; cbn [Recordings.orElse];
      change (Qeq_bool 0 0) with true; cbv iota; field.
Qed.

Lemma X20_storage_bar_witness :
  let data := {| Recordings.disk_used_gb := Some 30;
                 Recordings.disk_total_gb := Some 120 |} in
  Recordings.storageBarWidth data == 25.
Proof.
  cbv zeta.
  destruct (X20_storage_bar {| Recordings.disk_used_gb := Some 30;
                               Recordings.disk_total_gb := Some 120 |})
    as (_ & H & _).
  assert (Hw : Recordings.storageBarWidth
                 {| Recordings.disk_used_gb := Some 30;
                    Recordings.disk_total_gb := Some 120 |}
               == 30 / 120 * 100).
  { apply (H 30 120 eq_refl eq_refl).
    - vm_compute. discriminate.
    - vm_compute. discriminate.
    - vm_compute. reflexivity. }
  rewrite Hw. vm_compute. reflexivity.
Defined.

(** * The dashboard *)

(** X21: with the warning threshold at most the critical one, a reading
    is shown as Critical exactly when it reaches the critical threshold,
    as Warning exactly when it reaches the warning threshold only, and
    as Normal otherwise; a missing reading is shown as Normal. *)
Theorem X21_performance_status :
  forall element warning critical,
    warning <= critical ->
    (forall v,
        let shown := Dashboard.textContent
                       (Dashboard.updatePerformanceStatus element (Some v)
                          (warning, critical)) in
        (shown = "Critical"%string <-> critical <= v)
        /\ (shown = "Warning"%string <-> warning <= v /\ v < critical)
        /\ (shown = "Normal"%string <-> v < warning))
    /\ Dashboard.textContent
         (Dashboard.updatePerformanceStatus element None (warning, critical))
       = "Normal"%string.
Proof.
  intros element warning critical Hwc. split; [|reflexivity].
  intros v shown. subst shown.
  unfold Dashboard.updatePerformanceStatus, Dashboard.atLeast. cbn [fst snd].
  destruct (Qle_bool critical v) eqn:Ec.
  - apply Qle_bool_iff in Ec. cbn.
    split; [split; [intros _; assumption | reflexivity]|].
    split; (split; [discriminate | intro H; exfalso; lra]).
  - assert (Hc : v < critical).
    { apply Qnot_le_lt. intro H. apply Qle_bool_iff in H. congruence. }
    destruct (Qle_bool warning v) eqn:Ew.
    + apply Qle_bool_iff in Ew. cbn.
      split; [split; [discriminate | intro H; exfalso; lra]|].
      split; [split; [intros _; split; assumption | reflexivity]|].
      split; [discriminate | intro H; exfalso; lra].
    + assert (Hw : v < warning).
      { apply Qnot_le_lt. intro H. apply Qle_bool_iff in H. congruence. }
      cbn.
      split; [split; [discriminate | intro H; exfalso; lra]|].
      split; [split; [discriminate | intros [H _]; exfalso; lra]|].
      split; [intros _; assumption | reflexivity].
Qed.

Lemma X21_performance_status_witness :
  let element := {| Dashboard.textContent := ""; Dashboard.className := "";
                    Dashboard.styleColor := "" |} in
  Dashboard.textContent
    (Dashboard.updatePerformanceStatus element (Some 90) (80, 95))
  = "Warning"%string.
Proof.
  cbv zeta.
  destruct (X21_performance_status
              {| Dashboard.textContent := ""; Dashboard.className := "";
                 Dashboard.styleColor := "" |} 80 95) as [H _].
  - vm_compute. discriminate.
  - destruct (H 90) as (_ & Hw & _). apply Hw.
    split; [vm_compute; discriminate | vm_compute; reflexivity].
Defined.

Lemma updatePerformanceStatus_color element value thresholds :
  Dashboard.styleColor
    (Dashboard.updatePerformanceStatus element value thresholds)
  = Dashboard.styleColor element
  \/ Dashboard.styleColor
       (Dashboard.updatePerformanceStatus element value thresholds)
     = "#ffc107"%string.
Proof.
  unfold Dashboard.updatePerformanceStatus.
  destruct (Dashboard.atLeast value (snd thresholds)); [left; reflexivity|].
  destruct (Dashboard.atLeast value (fst thresholds));
    [right | left]; reflexivity.
Qed.

(** X22: the amber inline colour that a Warning sets is never taken
    back: once an element carries it, it keeps it through every later
    update, also when the status shown is Normal or Critical again. *)
Theorem X22_warning_colour_sticks :
  forall element readings thresholds,
    Dashboard.styleColor element = "#ffc107"%string ->
    Dashboard.styleColor (Dashboard.updateAll element readings thresholds)
    = "#ffc107"%string.
Proof.
  intros element readings thresholds. unfold Dashboard.updateAll.
  revert element.
  induction readings as [|v readings IH]; intros element H; [exact H|].
  cbn [fold_left]. apply IH.
  destruct (updatePerformanceStatus_color element v thresholds) as [E | E];
    rewrite E; [exact H | reflexivity].
Qed.

Lemma X22_warning_colour_sticks_witness :
  let fresh := {| Dashboard.textContent := ""; Dashboard.className := "";
                  Dashboard.styleColor := "" |} in
  let warned := Dashboard.updatePerformanceStatus fresh (Some 90) (80, 95) in
  let later := Dashboard.updateAll warned [Some 10; Some 99; Some 20]
                 (80, 95) in
  Dashboard.textContent later = "Normal"%string
  /\ Dashboard.className later = "metric-change positive"%string
  /\ Dashboard.styleColor later = "#ffc107"%string.
Proof.
  cbv zeta. split; [reflexivity|]. split; [reflexivity|].
  apply X22_warning_colour_sticks. reflexivity.
Defined.

(** X23: either chart always has as many labels as values and is never
    empty: when its list in the reply has entries they are shown in
    order, name by name with their counts, and when the list is missing
    or empty the chart's built-in sample of four entries is shown. *)
Theorem X23_charts_are_aligned :
  forall locations categories,
    let charts := Dashboard.updateCharts locations categories in
    let wellFormed chart :=
      List.length (Dashboard.labels chart)
      = List.length (Dashboard.values chart)
      /\ Dashboard.labels chart <> [] in
    wellFormed (fst charts) /\ wellFormed (snd charts)
    /\ (forall item items,
          locations = Some (item :: items) ->
          combine (Dashboard.labels (fst charts))
                  (Dashboard.values (fst charts))
          = map (fun b => (Dashboard.name b, Dashboard.count b))
                (item :: items))
    /\ (forall item items,
          categories = Some (item :: items) ->
          combine (Dashboard.labels (snd charts))
                  (Dashboard.values (snd charts))
          = map (fun b => (Dashboard.name b, Dashboard.count b))
                (item :: items))
    /\ (locations = None \/ locations = Some [] ->
        fst charts = Dashboard.sampleLocations)
    /\ (categories = None \/ categories = Some [] ->
        snd charts = Dashboard.sampleCategories)
    /\ List.length (Dashboard.labels Dashboard.sampleLocations) = 4%nat
    /\ List.length (Dashboard.labels Dashboard.sampleCategories) = 4%nat.
Proof.
  intros locations categories charts wellFormed.
  assert (Hwf : forall entries sample,
             wellFormed sample ->
             wellFormed (Dashboard.chartFrom entries sample)).
  { intros [[|b bs]|] sample Hs; try exact Hs.
    unfold wellFormed. cbn. rewrite !length_map. split; [reflexivity|].
    intro H. discriminate H. }
  split; [apply Hwf; split; [reflexivity | intro H; discriminate H]|].
  split; [apply Hwf; split; [reflexivity | intro H; discriminate H]|].
  assert (Hzip : forall l : list Dashboard.Bucket,
             combine (map Dashboard.name l) (map Dashboard.count l)
             = map (fun b => (Dashboard.name b, Dashboard.count b)) l).
  { induction l as [|b bs IH]; [reflexivity|]. cbn. rewrite IH. reflexivity. }
  split; [|split; [|split; [|split; [|split; reflexivity]]]].
  - intros item items E. subst charts. rewrite E. apply Hzip.
  - intros item items E. subst charts. rewrite E. apply Hzip.
  - intros [E | E]; subst charts; rewrite E; reflexivity.
  - intros [E | E]; subst charts; rewrite E; reflexivity.
Qed.

Lemma X23_charts_are_aligned_witness :
  let entries := [ {| Dashboard.name := "Lobby"; Dashboard.count := 4 |};
                   {| Dashboard.name := "Gate"; Dashboard.count := 1 |} ] in
  let kinds := [ {| Dashboard.name := "Theft"; Dashboard.count := 7 |} ] in
  let charts := Dashboard.updateCharts (Some entries) (Some kinds) in
  combine (Dashboard.labels (fst charts)) (Dashboard.values (fst charts))
  = [("Lobby"%string, 4%Z); ("Gate"%string, 1%Z)]
  /\ combine (Dashboard.labels (snd charts)) (Dashboard.values (snd charts))
     = [("Theft"%string, 7%Z)].
Proof.
  cbv zeta.
  destruct (X23_charts_are_aligned
              (Some [ {| Dashboard.name := "Lobby"; Dashboard.count := 4 |};
                      {| Dashboard.name := "Gate"; Dashboard.count := 1 |} ])
              (Some [ {| Dashboard.name := "Theft"; Dashboard.count := 7 |} ]))
    as (_ & _ & H & H' & _).
  split; [exact (H _ _ eq_refl) | exact (H' _ _ eq_refl)].
Defined.

(** * The navigation menu *)

(** X24: every click handler leaves the toggle icon in agreement with
    the menu (cross when open, bars when closed) once it was so, and the
    toggle button makes it so from any state; a link or a click outside
    the navigation bar can close the menu but never open it. *)
Theorem X24_menu_icon_matches :
  forall clicks nav,
    Navigation.iconMatches (Navigation.toggleMobileMenu nav)
    /\ (Navigation.iconMatches nav ->
        Navigation.iconMatches
          (fold_left (fun n c => Navigation.handle c n) clicks nav))
    /\ (Navigation.menuActive nav = false ->
        forall inside,
          Navigation.linkClicked nav = nav
          /\ Navigation.documentClicked inside nav = nav)
    /\ (Navigation.iconMatches nav ->
        Navigation.toggleMobileMenu (Navigation.toggleMobileMenu nav) = nav).
Proof.
  intros clicks nav.
  assert (Hstep : forall c n,
             Navigation.iconMatches n ->
             Navigation.iconMatches (Navigation.handle c n)).
  { intros c [active icon]. unfold Navigation.iconMatches. cbn.
    intro H. destruct c as [| |inside]; cbn;
      try destruct inside; destruct active; cbn; auto. }
  split; [|split; [|split]].
  - destruct nav as [[|] icon]; reflexivity.
  - revert nav. induction clicks as [|c clicks IH]; intros nav H; [exact H|].
    cbn [fold_left]. apply IH. apply Hstep. exact H.
  - intros H inside. unfold Navigation.linkClicked,
      Navigation.documentClicked. rewrite H.
    rewrite andb_false_r. split; reflexivity.
  - destruct nav as [[|] icon]; unfold Navigation.iconMatches; cbn;
      intro H; subst icon; reflexivity.
Qed.

Lemma X24_menu_icon_matches_witness :
  Navigation.iconMatches
    (fold_left (fun n c => Navigation.handle c n)
       [Navigation.OnToggle; Navigation.OnDocument true;
        Navigation.OnDocument false; Navigation.OnToggle; Navigation.OnLink]
       Navigation.closed).
Proof.
  apply (proj1 (proj2 (X24_menu_icon_matches
                         [Navigation.OnToggle; Navigation.OnDocument true;
                          Navigation.OnDocument false; Navigation.OnToggle;
                          Navigation.OnLink]
                         Navigation.closed))).
  reflexivity.
Defined.

(** * Recording, on the camera page *)

Lemma recorder_step_consistent cfg ev r :
  (Recorder.isRecording r = true <-> Recorder.recordingStartTime r <> None) ->
  (Recorder.isRecording (fst (Recorder.step cfg ev r)) = true
   <-> Recorder.recordingStartTime (fst (Recorder.step cfg ev r)) <> None).
Proof.
  intro H. destruct ev as [c st | reply now | reply | now]; cbn.
  - destruct (Recorder.buttonDisabled r); [exact H|].
    unfold Recorder.toggleRecording, Recorder.startRecording,
      Recorder.stopRecording.
    destruct (Recorder.isRecording r) eqn:E; cbn;
      [exact H|].
    destruct c; cbn; [|rewrite E; exact H].
    destruct st; cbn; rewrite ?E; exact H.
  - destruct reply; cbn; [|exact H|exact H].
    split; [discriminate | reflexivity].
  - destruct reply; cbn; split; congruence.
  - unfold Recorder.checkDuration, Recorder.stopRecording.
    destruct (Recorder.isRecording r) eqn:E; cbn; [|rewrite E; exact H].
    destruct (Recorder.enableRecording cfg); cbn; [|rewrite E; exact H].
    destruct (Recorder.started r); cbn; [|rewrite E; exact H].
    destruct (Qle_bool _ _); cbn; rewrite ?E; exact H.
Qed.

(** X25: [isRecording] and [recordingStartTime] always agree: in every
    state reached from the idle recorder, whatever the clicks, replies
    and encoded frames, the flag is set exactly when a start time is
    stored. *)
Theorem X25_recording_flag_and_start_time_agree :
  forall cfg evs,
    let r := Recorder.run cfg evs Recorder.idle in
    Recorder.isRecording r = true <-> Recorder.recordingStartTime r <> None.
Proof.
  intros cfg evs.
  assert (H : forall r,
             (Recorder.isRecording r = true
              <-> Recorder.recordingStartTime r <> None) ->
             let r' := Recorder.run cfg evs r in
             Recorder.isRecording r' = true
             <-> Recorder.recordingStartTime r' <> None).
  { induction evs as [|ev evs IH]; intros r Hr; [exact Hr|].
    cbn [Recorder.run]. apply IH. apply recorder_step_consistent. exact Hr. }
  apply H. cbn. split; [discriminate | congruence].
Qed.

(** X26: the recording flag is turned on by nothing but a successful
    reply to a start request, and every reply to a stop request turns
    it off and enables the button again, also when the server refuses
    to stop or the request fails.  While not recording, a click with
    the socket disconnected or the camera not streaming sends nothing
    and changes nothing; while recording, a click on the enabled button
    asks the server to stop whatever the connection and the camera, and
    disables the button, the flag staying set. *)
Theorem X26_recording_flag_transitions :
  forall cfg r,
    (forall ev,
        Recorder.isRecording r = false ->
        Recorder.isRecording (fst (Recorder.step cfg ev r)) = true ->
        exists now, ev = Recorder.StartReply Recorder.Succeeded now)
    /\ (forall reply,
          Recorder.step cfg (Recorder.StopReply reply) r
          = (Recorder.idle, []))
    /\ (forall connected streaming,
          Recorder.isRecording r = false ->
          connected && streaming = false ->
          Recorder.step cfg (Recorder.Click connected streaming) r = (r, []))
    /\ (forall connected streaming,
          Recorder.isRecording r = true ->
          Recorder.buttonDisabled r = false ->
          let clicked :=
            Recorder.step cfg (Recorder.Click connected streaming) r in
          snd clicked = [Recorder.PostStop]
          /\ Recorder.isRecording (fst clicked) = true
          /\ Recorder.buttonDisabled (fst clicked) = true).
Proof.
  intros cfg r. split; [|split; [|split]].
  - intros ev Hoff Hon.
    destruct ev as [c st | reply now | reply | now]; cbn in Hon.
    + exfalso. revert Hon. destruct (Recorder.buttonDisabled r);
        [cbn; congruence|].
      unfold Recorder.toggleRecording, Recorder.startRecording.
      rewrite Hoff. cbn. destruct c; cbn; [|congruence].
      destruct st; cbn; congruence.
    + destruct reply; cbn in Hon; try congruence.
      exists now. reflexivity.
    + exfalso. destruct reply; cbn in Hon; discriminate.
    + exfalso. revert Hon. unfold Recorder.checkDuration. rewrite Hoff.
      cbn. congruence.
  - intros [ | | ]; reflexivity.
  - intros connected streaming Hoff Hc. cbn.
    destruct (Recorder.buttonDisabled r); [reflexivity|].
    unfold Recorder.toggleRecording, Recorder.startRecording.
    rewrite Hoff. cbn.
    destruct connected; cbn; [|reflexivity].
    destruct streaming; cbn; [discriminate | reflexivity].
  - intros connected streaming Hon Hen. cbn.
    rewrite Hen. unfold Recorder.toggleRecording, Recorder.stopRecording.
    rewrite Hon. cbn.
    split; [reflexivity|]. split; reflexivity.
Qed.

Lemma X26_recording_flag_transitions_witness :
  let r := fst (Recorder.step Recorder.fiveMinutes
                  (Recorder.Click true true) Recorder.idle) in
  Recorder.isRecording r = false
  /\ Recorder.isRecording
       (fst (Recorder.step Recorder.fiveMinutes
               (Recorder.StartReply Recorder.Succeeded 5000) r)) = true
  /\ exists now,
       Recorder.StartReply Recorder.Succeeded 5000
       = Recorder.StartReply Recorder.Succeeded now.
Proof.
  cbv zeta. split; [reflexivity|]. split; [reflexivity|].
  apply (proj1 (X26_recording_flag_transitions Recorder.fiveMinutes
                  (fst (Recorder.step Recorder.fiveMinutes
                          (Recorder.Click true true) Recorder.idle))));
    reflexivity.
Defined.

(** X27: while a recording runs with recording enabled, the encoding of
    a frame asks the server to stop exactly when at least
    [maxRecordingDuration] minutes, that is 60000 ms each, have passed
    since the start; the recording flag itself stays set until the
    reply arrives. *)
Theorem X27_recording_stops_at_the_limit :
  forall cfg now startedAt r,
    Recorder.isRecording r = true ->
    Recorder.enableRecording cfg = true ->
    Recorder.recordingStartTime r = Some startedAt ->
    startedAt <> 0%Z ->
    let out := Recorder.step cfg (Recorder.FrameEncoded now) r in
    (snd out = [Recorder.PostStop]
     <-> Recorder.maxRecordingDuration cfg * 60000
         <= inject_Z (now - startedAt))
    /\ (snd out = [] \/ snd out = [Recorder.PostStop])
    /\ Recorder.isRecording (fst out) = true
    /\ Recorder.recordingStartTime (fst out) = Some startedAt.
Proof.
  intros cfg now startedAt r Hrec Hen Hst Hnz out. subst out. cbn.
  unfold Recorder.checkDuration, Recorder.started, Recorder.stopRecording.
  rewrite Hrec, Hen, Hst. apply Z.eqb_neq in Hnz. rewrite Hnz. cbn.
  assert (Hdur : inject_Z (now - startedAt) / 1000 / 60
                 == inject_Z (now - startedAt) / 60000) by (field; lra).
  destruct (Qle_bool (Recorder.maxRecordingDuration cfg)
              (inject_Z (now - startedAt) / 1000 / 60)) eqn:E.
  - apply Qle_bool_iff in E. rewrite Hdur in E. cbn.
    split; [|split; [right; reflexivity
                    | split; first [assumption | reflexivity]]].
    split; [intros _ | reflexivity].
    apply (Qmult_le_r _ _ 60000) in E; [|reflexivity].
    eapply Qle_trans; [exact E|].
    assert (Hx : inject_Z (now - startedAt) / 60000 * 60000
                 == inject_Z (now - startedAt)) by (field; lra).
    rewrite Hx. apply Qle_refl.
  - cbn.
    split; [|split; [left; reflexivity
                    | split; first [assumption | reflexivity]]].
    split; [discriminate|].
    intro H. exfalso.
    assert (Hle : Recorder.maxRecordingDuration cfg
                  <= inject_Z (now - startedAt) / 1000 / 60).
    { rewrite Hdur. apply Qle_shift_div_l; [reflexivity | exact H]. }
    apply Qle_bool_iff in Hle. congruence.
Qed.

Lemma X27_recording_stops_at_the_limit_witness :
  let r := {| Recorder.isRecording := true;
              Recorder.recordingStartTime := Some 5000%Z;
              Recorder.buttonDisabled := false |} in
  snd (Recorder.step Recorder.fiveMinutes (Recorder.FrameEncoded 304999) r)
  = []
  /\ snd (Recorder.step Recorder.fiveMinutes (Recorder.FrameEncoded 305000) r)
     = [Recorder.PostStop].
Proof.
  cbv zeta. split; [reflexivity|].
  apply (proj1 (X27_recording_stops_at_the_limit Recorder.fiveMinutes
                  305000%Z 5000%Z
                  {| Recorder.isRecording := true;
                     Recorder.recordingStartTime := Some 5000%Z;
                     Recorder.buttonDisabled := false |}
                  eq_refl eq_refl eq_refl ltac:(discriminate))).
  vm_compute. discriminate.
Defined.
